(** * Vendor onboarding form: zone selection, zone-code validation,
      rate-matrix validation and the submission flow.

    Shallow embedding of
    - [ZoneSelectorPage] (zone catalog, [handleZoneToggle]),
    - the [validateZoneConfig] middleware of the backend specification,
    - [SimpleChargeField] / [SimpleField] ([handleChange]),
    - [AddVendor] ([getCustomerIDFromToken], [validateAll], [handleSubmit]),
    together with the rate-matrix store and normalizer, which the
    repository only describes in prose. *)

From Stdlib Require Import QArith Qround ZArith Lia Ascii.
From stdpp Require Import gmap strings list fin_maps pretty.

Local Open Scope string_scope.
Set Warnings "-register-all".

(* ===================================================================== *)
(** ** Zone catalog and zone selection (ZoneSelectorPage.tsx)            *)
(* ===================================================================== *)

Module ZoneSelector.

(** [const ZONE_REGIONS = { North: [...], ... } as const] *)
Definition ZONE_REGIONS : list (string * list string) :=
  [ ("North",      ["N1"; "N2"; "N3"; "N4"; "N5"; "N6"]);
    ("South",      ["S1"; "S2"; "S3"; "S4"; "S5"; "S6"]);
    ("East",       ["E1"; "E2"; "E3"; "E4"]);
    ("West",       ["W1"; "W2"; "W3"; "W4"]);
    ("North-East", ["NE1"; "NE2"; "NE3"; "NE4"]);
    ("Central",    ["C1"; "C2"; "C3"; "C4"]) ].

(** [const MAX_ZONES = 28] *)
Definition MAX_ZONES : nat := 28.

(** Every code some region of the catalog offers. *)
Definition catalog : list string := concat (snd <$> ZONE_REGIONS).

(** The two pieces of component state [handleZoneToggle] writes:
    [useState<string[]>([])] and [useState(false)]. *)
Record SelectorState : Type := mkSelector {
  selectedZones : list string;
  showMaxWarning : bool
}.

Definition initialSelector : SelectorState := mkSelector [] false.

(** [handleZoneToggle]: the updater passed to [setSelectedZones], with
    the [setShowMaxWarning] calls made on the way.  (The timer that
    hides the warning again after three seconds is [expireWarning].) *)
Definition handleZoneToggle (zoneCode : string) (st : SelectorState)
  : SelectorState :=
  let prev := selectedZones st in
  if bool_decide (zoneCode ∈ prev) then
    mkSelector (filter (λ zone, zone ≠ zoneCode) prev) false
  else if decide (MAX_ZONES ≤ length prev)%nat then
    mkSelector prev true
  else
    mkSelector (prev ++ [zoneCode]) (showMaxWarning st).

(** [setTimeout(() => setShowMaxWarning(false), 3000)] firing. *)
Definition expireWarning (st : SelectorState) : SelectorState :=
  mkSelector (selectedZones st) false.

(** A sequence of clicks on zone buttons, oldest first. *)
Definition toggles (codes : list string) (st : SelectorState)
  : SelectorState :=
  foldl (λ s c, handleZoneToggle c s) st codes.

End ZoneSelector.

(* ===================================================================== *)
(** ** Zone-code pattern of the backend specification                    *)
(* ===================================================================== *)

Module ZoneCode.

(** The character class [[1-6]]. *)
Definition digit_1_6 (c : ascii) : bool :=
  let n := nat_of_ascii c in (49 <=? n)%nat && (n <=? 54)%nat.

(** The one-letter alternatives of [(N|S|E|W|NE|C)]. *)
Definition prefix1 (c : ascii) : bool :=
  bool_decide (c ∈ ["N"; "S"; "E"; "W"; "C"]%char).

(** [validZonePattern.test(code)] for
    [const validZonePattern = /^(N|S|E|W|NE|C)[1-6]$/]:
    anchored at both ends, one prefix alternative, one digit 1-6.
    A two-character input can only use a one-letter alternative, a
    three-character input only [NE]. *)
Definition validZonePattern_test (code : string) : bool :=
  match code with
  | String p (String d EmptyString) => prefix1 p && digit_1_6 d
  | String n (String e (String d EmptyString)) =>
      bool_decide (n = "N"%char) && bool_decide (e = "E"%char) && digit_1_6 d
  | _ => false
  end.

(** Every string the pattern accepts: six prefixes times six digits. *)
Definition accepted : list string :=
  p ← ["N"; "S"; "E"; "W"; "NE"; "C"];
  d ← ["1"; "2"; "3"; "4"; "5"; "6"];
  [p +:+ d].

End ZoneCode.


(* ===================================================================== *)
(** ** Zone configuration validation (middleware/validateZoneConfig.js)  *)
(* ===================================================================== *)

Module ZoneConfig.
Import ZoneCode.

(** An element of [zones]; the middleware reads [zoneCode] only. *)
Record Zone : Type := mkZone {
  zoneCode : string;
  zoneName : string;
  region : string
}.

(** An element of [priceMatrix].  [price] is a number or [null]; a
    number that arrived as JSON is finite, and is kept here as the
    rational it denotes. *)
Record PriceMatrixEntry : Type := mkEntry {
  fromZone : string;
  toZone : string;
  price : option Q
}.

(** [req.body].  [None] stands for a property that is absent, for
    [configName], or not an array, for [zones] and [priceMatrix]. *)
Record Body : Type := mkBody {
  customerID : string;
  configName : option string;
  zones : option (list Zone);
  priceMatrix : option (list PriceMatrixEntry)
}.

(** The request: its body and [req.user.customer._id]. *)
Record Request : Type := mkRequest {
  body : Body;
  user_customer_id : string
}.

(** What the middleware does with a request: answer with a status and
    a message, or call [next()]. *)
Inductive Outcome : Type :=
| Reject (status : nat) (message : string)
| Next.

(** The literal [999999.999]. The double it denotes,
    [8589934583410065 / 2^33], lies just below the decimal with no
    double in between, so [p > 999999.999] gives the same answer on
    every double [p] with either reading. *)
Definition MAX_PRICE : Q := 999999999 # 1000.

(** [entry.price < 0] and [entry.price > 999999.999] *)
Definition Qltb (x y : Q) : bool := negb (Qle_bool y x).

(** [zoneCodes.includes(code)] *)
Definition includes (zoneCodes : list string) (code : string) : bool :=
  bool_decide (code ∈ zoneCodes).

(** [for (const zone of zones) if (!validZonePattern.test(zone.zoneCode)) return ...] *)
Fixpoint checkZoneCodes (zs : list Zone) : option Outcome :=
  match zs with
  | [] => None
  | zone :: rest =>
      if negb (validZonePattern_test (zoneCode zone))
      then Some (Reject 400 ("Invalid zone code: " +:+ zoneCode zone))
      else checkZoneCodes rest
  end.

(** [for (const entry of priceMatrix) { ... }]: the first offending
    entry decides the answer. *)
Fixpoint checkPriceMatrix (zoneCodes : list string)
         (pm : list PriceMatrixEntry) : option Outcome :=
  match pm with
  | [] => None
  | entry :: rest =>
      if negb (includes zoneCodes (fromZone entry))
         || negb (includes zoneCodes (toZone entry))
      then Some (Reject 400 "Price matrix references non-existent zones")
      else
        match price entry with
        | Some p =>
            if Qltb p 0 || Qltb MAX_PRICE p
            then Some (Reject 400 "Invalid price value")
            else checkPriceMatrix zoneCodes rest
        | None => checkPriceMatrix zoneCodes rest
        end
  end.

(** [s.length]: the number of UTF-16 code units of the text whose UTF-8
    bytes the string holds.  A byte below 128 is a character of one
    unit; a byte from 128 to 191 continues a character and adds
    nothing; a byte from 192 to 239 starts a character of two or three
    bytes, one unit; a byte from 240 starts a character of four bytes,
    which takes two units. *)
Fixpoint utf16_length (s : string) : nat :=
  match s with
  | EmptyString => 0%nat
  | String c rest =>
      let b := nat_of_ascii c in
      ((if (b <? 128)%nat then 1
        else if (b <? 192)%nat then 0
        else if (b <? 240)%nat then 1
        else 2) + utf16_length rest)%nat
  end.

(** [!configName || configName.length > 100] *)
Definition badConfigName (n : option string) : bool :=
  match n with
  | None => true
  | Some s => bool_decide (s = "") || (100 <? utf16_length s)%nat
  end.

(** [validateZoneConfig(req, res, next)] *)
Definition validateZoneConfig (req : Request) : Outcome :=
  let b := body req in
  if negb (bool_decide (customerID b = user_customer_id req)) then
    Reject 403 "Customer ID mismatch"
  else if badConfigName (configName b) then
    Reject 400 "Invalid configuration name"
  else
    match zones b with
    | None => Reject 400 "Zones must be an array with 1-28 items"
    | Some zs =>
        if (length zs =? 0)%nat || (28 <? length zs)%nat then
          Reject 400 "Zones must be an array with 1-28 items"
        else
          match checkZoneCodes zs with
          | Some r => r
          | None =>
              match priceMatrix b with
              | None => Reject 400 "Price matrix must be an array"
              | Some pm =>
                  match checkPriceMatrix (zoneCode <$> zs) pm with
                  | Some r => r
                  | None => Next
                  end
              end
          end
    end.

(** *** The validator as the specification words it *)

(** The price the matrix holds for a pair: that of the first entry
    for the pair, unset when there is none or when it is [null]. *)
Definition price_at (pm : list PriceMatrixEntry) (f t : string)
  : option Q :=
  e ← find (λ e, bool_decide (fromZone e = f ∧ toZone e = t)) pm;
  price e.

(** (a) some in-scope pair has no price *)
Definition unset_pair (S : list string) (pm : list PriceMatrixEntry)
  : Prop :=
  ∃ f t, f ∈ S ∧ t ∈ S ∧ price_at pm f t = None.

(** (b) some entry has a negative price *)
Definition negative_entry (pm : list PriceMatrixEntry) : Prop :=
  ∃ e p, e ∈ pm ∧ price e = Some p ∧ (p < 0)%Q.

(** (c) some entry names a zone outside the active set *)
Definition foreign_entry (S : list string) (pm : list PriceMatrixEntry)
  : Prop :=
  ∃ e, e ∈ pm ∧ (fromZone e ∉ S ∨ toZone e ∉ S).

(** some entry has a price above the maximum *)
Definition oversized_entry (pm : list PriceMatrixEntry) : Prop :=
  ∃ e p, e ∈ pm ∧ price e = Some p ∧ (MAX_PRICE < p)%Q.

(** "fails iff at least one in-scope pair is unset or negative, or
    some entry references a zone outside S" *)
Definition spec_must_fail (S : list string) (pm : list PriceMatrixEntry)
  : Prop :=
  unset_pair S pm ∨ negative_entry pm ∨ foreign_entry S pm.

(** What the loop over the matrix accepts in an entry. *)
Definition entry_ok (S : list string) (e : PriceMatrixEntry) : Prop :=
  fromZone e ∈ S ∧ toZone e ∈ S ∧
  ∀ p, price e = Some p → (0 <= p)%Q ∧ (p <= MAX_PRICE)%Q.

(** The checks that come before the matrix is looked at. *)
Definition header_ok (req : Request) (zs : list Zone) : Prop :=
  customerID (body req) = user_customer_id req ∧
  badConfigName (configName (body req)) = false ∧
  zones (body req) = Some zs ∧
  (1 ≤ length zs ≤ 28)%nat ∧
  Forall (λ z, validZonePattern_test (zoneCode z) = true) zs.

End ZoneConfig.


(* ===================================================================== *)
(** ** Rate matrix store and normalizer                                  *)
(* ===================================================================== *)

Module RateMatrix.

(** "a mapping from (fromZone, toZone) pairs to a nullable decimal
    price": a pair is absent from the map, or present with a price
    ([Some (Some p)]), or present and unset ([Some None]). *)
Abbreviation Matrix := (gmap (string * string) (option Q)).

(** [get(from, to)]: the current price or "unset". *)
Definition get (m : Matrix) (from to : string) : option Q :=
  default None (m !! (from, to)).

(** Modelled from the spec: the hook [useZoneRates] that builds the
    matrix is not among the sources.  [initialize(fromZones, toZones)]
    "creates one entry per (from, to) pair with price absent, for all
    pairs not already present; preserves any already-entered prices
    for pairs that remain in scope; discards entries whose zone no
    longer belongs to the active set". *)
Definition initialize (fromZones toZones : list string) (old : Matrix)
  : Matrix :=
  list_to_map ((λ k, (k, get old k.1 k.2)) <$> list_prod fromZones toZones).

(** Half-up rounding to hundredths: [floor (100 q + 1/2) / 100].
    The result always has denominator 100. *)
Definition round2 (q : Q) : Q := Qfloor (q * 100 + (1 # 2)) # 100.

(** Modelled from the spec: [normalizeAndValidate] lives in the hook
    [useZoneRates], which is not among the sources.  [normalize(matrix)]
    "rounds every present price to exactly two fractional decimal
    digits using standard half-up rounding; returns a new matrix of
    the same shape".  Prices are the decimals the user typed. *)
Definition normalize (m : Matrix) : Matrix :=
  fmap (M := option) round2 <$> m.

End RateMatrix.


(* ===================================================================== *)
(** ** Basic charge fields (ChargesSection.tsx, BasicChargesGrid.tsx)    *)
(* ===================================================================== *)

Module ChargeField.

(** A JavaScript number as [parseFloat] can return it. *)
Inductive number : Type :=
| NaN
| Infinity (negative : bool)
| Finite (q : Q).

Definition isNaN (n : number) : bool :=
  match n with NaN => true | _ => false end.

Section HandleChange.
(** The global [parseFloat], and the [onChange] prop: what the parent
    does to its store with the number it is handed
    ([(val) => setCharge('docketCharges', val)]). *)
Context {Store : Type}.
Variable parseFloat : string → number.
Variable onChange : number → Store → Store.

(** [SimpleChargeField]'s [handleChange], on [e.target.value]. *)
Definition SimpleChargeField_handleChange (val : string) (st : Store)
  : Store :=
  if bool_decide (val = "") then onChange (Finite 0) st
  else
    let num := parseFloat val in
    if negb (isNaN num) then onChange num st else st.

(** [SimpleField]'s [handleChange] in the grid layout. *)
Definition SimpleField_handleChange (val : string) (st : Store)
  : Store :=
  if bool_decide (val = "") then onChange (Finite 0) st
  else
    let num := parseFloat val in
    if negb (isNaN num) then onChange num st else st.
End HandleChange.

(** A parent that keeps the number it is given, as the [value] prop
    shown back in the field. *)
Definition keep (n : number) (_ : number) : number := n.

(** [parseFloat] on a few inputs, [NaN] standing in elsewhere:
    enough to run the handlers on examples. *)
Definition parseFloat_sample (s : string) : number :=
  if bool_decide (s = "12.5") then Finite (125 # 10)
  else if bool_decide (s = "40") then Finite 40
  else if bool_decide (s = "Infinity") then Infinity false
  else NaN.

End ChargeField.

(* ===================================================================== *)
(** ** The Add Vendor page (pages/AddVendor.tsx)                         *)
(* ===================================================================== *)

Module Token.

(** A value [JSON.parse] can produce.  An object is the list of its
    own properties, each key once. *)
Inductive Json : Type :=
| JNull
| JBool (b : bool)
| JNumber (n : Q)
| JString (s : string)
| JArray (items : list Json)
| JObject (fields : list (string * Json)).

(** Truthiness; [None] is [undefined]. *)
Definition truthy (v : option Json) : bool :=
  match v with
  | None | Some JNull => false
  | Some (JBool b) => b
  | Some (JNumber n) => negb (Qeq_bool n 0)
  | Some (JString s) => negb (bool_decide (s = ""))
  | Some (JArray _) | Some (JObject _) => true
  end.

(** [a || b] *)
Definition or_else (a b : option Json) : option Json :=
  if truthy a then a else b.

(** [v?.key] for the keys the page reads, none of which a string, a
    number, a boolean or an array has. *)
Definition prop (v : option Json) (key : string) : option Json :=
  match v with
  | Some (JObject fields) => snd <$> find (λ kv, bool_decide (kv.1 = key)) fields
  | _ => None
  end.

(** [s.split('.')] *)
Fixpoint split_dot (s : string) : list string :=
  match s with
  | EmptyString => [EmptyString]
  | String c rest =>
      if bool_decide (c = "."%char) then EmptyString :: split_dot rest
      else match split_dot rest with
           | h :: t => String c h :: t
           | [] => [String c EmptyString]
           end
  end.

(** [.replace(/-/g, '+').replace(/_/g, '/')] *)
Fixpoint to_base64_alphabet (s : string) : string :=
  match s with
  | EmptyString => EmptyString
  | String c rest =>
      String (if bool_decide (c = "-"%char) then "+"%char
              else if bool_decide (c = "_"%char) then "/"%char else c)
             (to_base64_alphabet rest)
  end.

(** [s.padEnd(n, '=')] *)
Definition padEnd (s : string) (n : nat) : string :=
  s +:+ String.string_of_list_ascii (replicate (n - String.length s) "="%char).

(** [Math.ceil(n / 4) * 4] *)
Definition ceil4 (n : nat) : nat := ((n + 3) / 4 * 4)%nat.

(** Where a token can be stored: the [authToken] cookie and two
    [localStorage] keys. *)
Record Storage : Type := mkStorage {
  cookie_authToken : option string;
  local_authToken : option string;
  local_token : option string
}.

(** [a || b] on strings that may be missing. *)
Definition str_or (a : option string) (b : option string) : option string :=
  match a with
  | Some s => if bool_decide (s = "") then b else a
  | None => b
  end.

(** [getAuthToken()] *)
Definition getAuthToken (st : Storage) : string :=
  default "" (str_or (cookie_authToken st)
               (str_or (local_authToken st) (str_or (local_token st) (Some "")))).

Section Decode.
(** The platform's [atob] and [JSON.parse]; [None] when they throw. *)
Variable atob : string → option string.
Variable JSON_parse : string → option Json.

(** [base64UrlToJson]: [null] when decoding or parsing throws.  The
    result of a successful parse may itself be [null]. *)
Definition base64UrlToJson (b64url : string) : option Json :=
  let b64 := padEnd (to_base64_alphabet b64url)
                    (ceil4 (String.length b64url)) in
  json ← atob b64;
  JSON_parse json.

(** The payload [getCustomerIDFromToken] works with:
    [base64UrlToJson(token.split('.')[1]) || {}]. *)
Definition payloadOf (token : string) : option Json :=
  or_else (base64UrlToJson (default "" (split_dot token !! 1%nat)))
          (Some (JObject [])).

(** The places of the payload where an identifier is looked for, in
    the order they are tried. *)
Definition claims (payload : option Json) : list (option Json) :=
  [prop (prop payload "customer") "_id"; prop (prop payload "user") "_id";
   prop payload "_id"; prop payload "id"; prop payload "customerId";
   prop payload "customerID"].

(** [getCustomerIDFromToken()].  [None] is the [TypeError] that
    [Object.keys(payload.customer)] raises when [payload.customer]
    is [null] ([typeof null === 'object']); otherwise the value
    returned, the empty string when nothing was found. *)
Definition getCustomerIDFromToken (st : Storage) : option Json :=
  let token := getAuthToken st in
  if bool_decide (token = "") || (length (split_dot token) <? 2)%nat
  then Some (JString "")
  else
    let payload := payloadOf token in
    let id :=
      or_else (prop (prop payload "customer") "_id")
      (or_else (prop (prop payload "user") "_id")
      (or_else (prop payload "_id")
      (or_else (prop payload "id")
      (or_else (prop payload "customerId")
      (or_else (prop payload "customerID")
               (Some (JString ""))))))) in
    match prop payload "customer" with
    | Some JNull => None
    | _ => or_else id (Some (JString ""))
    end.
End Decode.

End Token.


Module AddVendor.
Import Token.

(** The calls into the five section hooks that the submit handler
    makes and whose order matters. *)
Inductive HookCall : Type :=
| VendorBasics_validateAll
| PincodeLookup_validateGeo
| Volumetric_validateVolumetric
| Charges_validateAll
| ZoneRates_validateZoneRates
| ZoneRates_normalizeAndValidate.

Inductive Hook : Type :=
| VendorBasics | PincodeLookup | Volumetric | Charges | ZoneRates.

Inductive TransportMode : Type := road | air | rail | ship.

(** The answer to the request: [fetch] rejecting, or a response with
    [res.ok], [res.status] and the body [res.json()] parsed ([None]
    when parsing it fails). *)
Inductive FetchResult : Type :=
| NetworkError
| Response (ok : bool) (status : nat) (json : option Json).

(** How a piece of the handler ends: with a value, with [return],
    with an exception, or suspended at [await fetch]. *)
Inductive Completion (A : Type) : Type :=
| Normal (a : A)
| Return_
| Throw
| Await.
Arguments Normal {A} a.
Arguments Return_ {A}.
Arguments Throw {A}.
Arguments Await {A}.

(** The hooks [useVendorBasics], [usePincodeLookup], [useVolumetric],
    [useCharges] and [useZoneRates] are not among the sources; the page
    sees them through this interface: the state each keeps, the state
    its [reset()] restores, and its validator read as a function of
    that state ([normalizeAndValidate] answers [null] on failure).
    [FileT] and [DraftT] are an uploaded file and the stored draft. *)
Class Hooks : Type := {
  BasicsT : Type;
  GeoT : Type;
  VolumetricT : Type;
  ChargesT : Type;
  ZoneRatesT : Type;
  NormalizedT : Type;
  FileT : Type;
  DraftT : Type;
  basics0 : BasicsT;
  geo0 : GeoT;
  volumetric0 : VolumetricT;
  charges0 : ChargesT;
  zoneRates0 : ZoneRatesT;
  vendorBasics_validateAll : BasicsT → bool;
  validateGeo : GeoT → bool;
  validateVolumetric : VolumetricT → bool;
  charges_validateAll : ChargesT → bool;
  validateZoneRates : ZoneRatesT → bool;
  normalizeAndValidate : ZoneRatesT → option NormalizedT;
  companyName : BasicsT → string
}.

(** What the page takes from the platform: [String.prototype.trim],
    [atob], [JSON.parse] and the value of [Date.now()]. *)
Class Platform : Type := {
  trim : string → string;
  atob : string → option string;
  JSON_parse : string → option Json;
  now : nat
}.

Section Page.
Context `{Hooks, Platform}.

Record Form : Type := mkForm {
  basics : BasicsT;
  geo : GeoT;
  volumetric : VolumetricT;
  charges : ChargesT;
  zoneRates : ZoneRatesT
}.

(** Everything the handler reads or writes: the hooks' state, the
    page's own [useState] cells, the draft store and the places a
    token is read from. *)
Record World : Type := mkWorld {
  form : Form;
  transportMode : TransportMode;
  priceChartFile : option FileT;
  isSubmitting : bool;
  refreshTrigger : nat;
  draft : option DraftT;
  storage : Storage
}.

(** The [vendor] object: the hooks' state at submit time. *)
Record Vendor : Type := mkVendor {
  vendor_form : Form;
  vendor_transportMode : TransportMode
}.

(** [fileToSend] *)
Inductive Upload : Type :=
| Uploaded (f : FileT)
| Placeholder (timestamp : nat) (company : string).

(** The entries appended to the [FormData]. *)
Record FormData : Type := mkFormData {
  fd_customerID : Json;
  fd_companyName : string;
  fd_priceRate : string;
  fd_priceChart : Upload;
  fd_vendorJson : Vendor
}.

(** What the handler does that can be seen from outside, in order.
    The [emitDebug] and [console.debug] lines are diagnostics and are
    left out. *)
Inductive Event : Type :=
| Called (h : HookCall)
| ToastError (msg : Json)
| ToastSuccess (msg : string)
| SetIsSubmitting (b : bool)
| Fetch (token : string) (fd : FormData)
| ClearDraft
| Reset (h : Hook)
| SetPriceChartFile_null
| SetRefreshTrigger.

(** A piece of the handler: new state, events emitted, completion. *)
Definition M (A : Type) : Type := World → World * list Event * Completion A.

Definition ret {A} (a : A) : M A := λ w, (w, [], Normal a).

Definition bind {A B} (m : M A) (k : A → M B) : M B := λ w,
  match m w with
  | (w1, ev1, Normal a) =>
      match k a w1 with (w2, ev2, c) => (w2, (ev1 ++ ev2)%list, c) end
  | (w1, ev1, Return_) => (w1, ev1, Return_)
  | (w1, ev1, Throw) => (w1, ev1, Throw)
  | (w1, ev1, Await) => (w1, ev1, Await)
  end.

Notation "x <- m ;; k" := (bind m (λ x, k))
  (at level 100, m at level 99, right associativity).
Notation "m ;; k" := (bind m (λ _, k))
  (at level 100, right associativity).

Definition emit (e : Event) : M unit := λ w, (w, [e], Normal tt).
Definition read {A} (f : World → A) : M A := λ w, (w, [], Normal (f w)).
Definition write (f : World → World) (e : Event) : M unit :=
  λ w, (f w, [e], Normal tt).
Definition return_ {A} : M A := λ w, (w, [], Return_).
Definition throw {A} : M A := λ w, (w, [], Throw).

(** [try { body } catch { handler } finally { fin }].  A body that
    is suspended stays suspended: neither block has run yet. *)
Definition try_catch_finally (body : M unit) (handler fin : M unit)
  : M unit := λ w,
  match body w with
  | (w1, ev1, Await) => (w1, ev1, Await)
  | (w1, ev1, Throw) =>
      match (handler ;; fin) w1 with (w2, ev2, c) => (w2, (ev1 ++ ev2)%list, c) end
  | (w1, ev1, Return_) =>
      match fin w1 with
      | (w2, ev2, Normal _) => (w2, (ev1 ++ ev2)%list, Return_)
      | (w2, ev2, c) => (w2, (ev1 ++ ev2)%list, c)
      end
  | (w1, ev1, Normal _) =>
      match fin w1 with (w2, ev2, c) => (w2, (ev1 ++ ev2)%list, c) end
  end.

(** *** State writes *)

Definition set_isSubmitting (b : bool) (w : World) : World :=
  mkWorld (form w) (transportMode w) (priceChartFile w) b
          (refreshTrigger w) (draft w) (storage w).
Definition set_form (f : Form) (w : World) : World :=
  mkWorld f (transportMode w) (priceChartFile w) (isSubmitting w)
          (refreshTrigger w) (draft w) (storage w).
Definition set_priceChartFile (f : option FileT) (w : World) : World :=
  mkWorld (form w) (transportMode w) f (isSubmitting w)
          (refreshTrigger w) (draft w) (storage w).
Definition set_refreshTrigger (n : nat) (w : World) : World :=
  mkWorld (form w) (transportMode w) (priceChartFile w) (isSubmitting w)
          n (draft w) (storage w).
Definition set_draft (d : option DraftT) (w : World) : World :=
  mkWorld (form w) (transportMode w) (priceChartFile w) (isSubmitting w)
          (refreshTrigger w) d (storage w).

Definition reset_hook (h : Hook) (f : Form) : Form :=
  match h with
  | VendorBasics => mkForm basics0 (geo f) (volumetric f) (charges f) (zoneRates f)
  | PincodeLookup => mkForm (basics f) geo0 (volumetric f) (charges f) (zoneRates f)
  | Volumetric => mkForm (basics f) (geo f) volumetric0 (charges f) (zoneRates f)
  | Charges => mkForm (basics f) (geo f) (volumetric f) charges0 (zoneRates f)
  | ZoneRates => mkForm (basics f) (geo f) (volumetric f) (charges f) zoneRates0
  end.

Definition form0 : Form :=
  mkForm basics0 geo0 volumetric0 charges0 zoneRates0.

(** *** The handler's steps *)

Definition setIsSubmitting (b : bool) : M unit :=
  write (set_isSubmitting b) (SetIsSubmitting b).
Definition toast_error (msg : string) : M unit :=
  emit (ToastError (JString msg)).
Definition clearDraft : M unit := write (set_draft None) ClearDraft.
Definition reset (h : Hook) : M unit :=
  write (λ w, set_form (reset_hook h (form w)) w) (Reset h).
Definition setPriceChartFile_null : M unit :=
  write (set_priceChartFile None) SetPriceChartFile_null.
Definition setRefreshTrigger_incr : M unit :=
  write (λ w, set_refreshTrigger (refreshTrigger w + 1) w) SetRefreshTrigger.

(** A call into a hook that only answers. *)
Definition call {A} (h : HookCall) (f : Form → A) : M A :=
  emit (Called h) ;; read (λ w, f (form w)).

(** [errors.forEach((err) => toast.error(err, ...))] *)
Fixpoint toast_errors (errors : list string) : M unit :=
  match errors with
  | [] => ret tt
  | err :: rest => toast_error err ;; toast_errors rest
  end.

(** [errors.push(msg)] under [if (!ok)] *)
Definition push_unless (ok : bool) (msg : string) : list string :=
  if ok then [] else [msg].

(** [validateAll()] *)
Definition validateAll : M bool :=
  v1 <- call VendorBasics_validateAll (λ f, vendorBasics_validateAll (basics f)) ;;
  v2 <- call PincodeLookup_validateGeo (λ f, validateGeo (geo f)) ;;
  v3 <- call Volumetric_validateVolumetric (λ f, validateVolumetric (volumetric f)) ;;
  v4 <- call Charges_validateAll (λ f, charges_validateAll (charges f)) ;;
  v5 <- call ZoneRates_validateZoneRates (λ f, validateZoneRates (zoneRates f)) ;;
  let errors :=
    (push_unless v1 "Company information is incomplete or invalid"
     ++ push_unless v2 "Location information is incomplete"
     ++ push_unless v3 "Volumetric configuration is invalid"
     ++ push_unless v4 "Charges configuration is invalid"
     ++ push_unless v5 "Zone rate matrix is incomplete or invalid")%list in
  let isValid := v1 && v2 && v3 && v4 && v5 in
  (if negb isValid then toast_errors errors else ret tt) ;;
  ret isValid.

(** [const customerID = getCustomerIDFromToken()], which may throw. *)
Definition customerID_of_token : M Json :=
  st <- read storage ;;
  match getCustomerIDFromToken atob JSON_parse st with
  | Some id => ret id
  | None => throw
  end.

(** [let fileToSend = priceChartFile; if (!fileToSend) { ... }] *)
Definition fileToSend (w : World) : Upload :=
  match priceChartFile w with
  | Some f => Uploaded f
  | None => Placeholder now (companyName (basics (form w)))
  end.

(** [await fetch(url, {...})].  With no answer at hand the handler
    is suspended here; with one, a network failure throws. *)
Definition fetch (net : option FetchResult) (token : string) (fd : FormData)
  : M FetchResult :=
  emit (Fetch token fd) ;;
  match net with
  | None => λ w, (w, [], Await)
  | Some NetworkError => throw
  | Some r => ret r
  end.

(** [json?.message || `Failed to create vendor (${res.status})`] *)
Definition failure_message (json : option Json) (status : nat) : Json :=
  default JNull
    (or_else (prop json "message")
       (Some (JString ("Failed to create vendor (" +:+ pretty status +:+ ")")))).

(** From [const json = await res.json().catch(() => ({}))] to the end
    of the [try] block. *)
Definition afterResponse (r : FetchResult) : M unit :=
  match r with
  | NetworkError => throw
  | Response ok status body =>
      let json := Some (default (JObject []) body) in
      if negb ok || negb (truthy (prop json "success")) then
        emit (ToastError (failure_message json status)) ;;
        setIsSubmitting false ;;
        return_
      else
        emit (ToastSuccess "Vendor created successfully!") ;;
        clearDraft ;;
        reset VendorBasics ;;
        reset PincodeLookup ;;
        reset Volumetric ;;
        reset Charges ;;
        reset ZoneRates ;;
        setPriceChartFile_null ;;
        setRefreshTrigger_incr
  end.

(** The [try] block. *)
Definition submitBody (net : option FetchResult) : M unit :=
  normalizedZoneRates <-
    call ZoneRates_normalizeAndValidate (λ f, normalizeAndValidate (zoneRates f)) ;;
  match normalizedZoneRates with
  | None =>
      toast_error "Failed to normalize zone rates" ;;
      setIsSubmitting false ;;
      return_
  | Some _ =>
      vendor <- read (λ w, mkVendor (form w) (transportMode w)) ;;
      customerID <- customerID_of_token ;;
      if negb (truthy (Some customerID)) then
        toast_error "No customerID found in token" ;;
        setIsSubmitting false ;;
        return_
      else
        file <- read fileToSend ;;
        let fd := mkFormData customerID
                    (trim (companyName (basics (vendor_form vendor))))
                    "0" file vendor in
        token <- read (λ w, getAuthToken (storage w)) ;;
        res <- fetch net token fd ;;
        afterResponse res
  end.

Definition unexpected : M unit :=
  toast_error "An unexpected error occurred. Please try again.".

(** [handleSubmit].  [net] is the answer the request gets; with
    [None] the handler runs until it is suspended at [await fetch]. *)
Definition handleSubmit (net : option FetchResult) : M unit :=
  valid <- validateAll ;;
  if negb valid then return_
  else
    setIsSubmitting true ;;
    try_catch_finally (submitBody net) unexpected (setIsSubmitting false).

(** The handler continuing when the answer to its request arrives:
    the rest of the [try] block, under the same [catch] and
    [finally]. *)
Definition handleSubmit_resume (r : FetchResult) : M unit :=
  try_catch_finally (afterResponse r) unexpected (setIsSubmitting false).


(** *** Reading a run *)

(** What [validateAll] returns, and the messages it collects. *)
Definition sectionsValid (f : Form) : bool :=
  vendorBasics_validateAll (basics f) && validateGeo (geo f)
  && validateVolumetric (volumetric f) && charges_validateAll (charges f)
  && validateZoneRates (zoneRates f).

Definition validation_errors (f : Form) : list string :=
  (push_unless (vendorBasics_validateAll (basics f))
     "Company information is incomplete or invalid"
   ++ push_unless (validateGeo (geo f)) "Location information is incomplete"
   ++ push_unless (validateVolumetric (volumetric f))
        "Volumetric configuration is invalid"
   ++ push_unless (charges_validateAll (charges f))
        "Charges configuration is invalid"
   ++ push_unless (validateZoneRates (zoneRates f))
        "Zone rate matrix is incomplete or invalid")%list.

Definition validation_calls : list Event :=
  [Called VendorBasics_validateAll; Called PincodeLookup_validateGeo;
   Called Volumetric_validateVolumetric; Called Charges_validateAll;
   Called ZoneRates_validateZoneRates].

(** The account identifier the stored token yields, if any: the call
    returned, and returned something truthy. *)
Definition customerID (w : World) : option Json :=
  id ← getCustomerIDFromToken atob JSON_parse (storage w);
  if truthy (Some id) then Some id else None.

(** Validation passes, normalization succeeds and the token holds an
    account identifier: the request is going to be sent. *)
Definition ready (w : World) : Prop :=
  sectionsValid (form w) = true
  ∧ is_Some (normalizeAndValidate (zoneRates (form w)))
  ∧ is_Some (customerID w).

(** [res.ok && json?.success]: the answer counts as a success. *)
Definition succeeded (r : FetchResult) : bool :=
  match r with
  | NetworkError => false
  | Response ok _ body =>
      ok && truthy (prop (Some (default (JObject []) body)) "success")
  end.

(** The [FormData] the handler builds for the identifier [id]. *)
Definition request_of (id : Json) (w : World) : FormData :=
  mkFormData id (trim (companyName (basics (form w)))) "0" (fileToSend w)
             (mkVendor (form w) (transportMode w)).

(** The state after the success path: draft cleared, the five sections
    reset, no file, the table refreshed; the transport mode, which the
    success path does not set, as it was. *)
Definition cleared (w : World) : World :=
  mkWorld form0 (transportMode w) None (isSubmitting w)
          (refreshTrigger w + 1) None (storage w).

(** What the specification asks of the page after a successful
    submission: all it holds of the vendor is as on a page just
    mounted, the draft store empty, the five sections at their first
    values, the transport mode at [useState('road')] and no file. *)
Definition spec_all_cleared (w : World) : Prop :=
  draft w = None ∧ form w = form0 ∧ transportMode w = road
  ∧ priceChartFile w = None.

(** The requests a run of the handler sent. *)
Definition sent (evs : list Event) : list FormData :=
  omap (λ e, match e with Fetch _ fd => Some fd | _ => None end) evs.

(** The error messages a run showed. *)
Definition error_toasts (evs : list Event) : list Json :=
  omap (λ e, match e with ToastError m => Some m | _ => None end) evs.

(** The value [isSubmitting] had at each request of a run that started
    with [isSubmitting = b]. *)
Fixpoint flags_at_fetch (b : bool) (evs : list Event) : list bool :=
  match evs with
  | [] => []
  | SetIsSubmitting b' :: rest => flags_at_fetch b' rest
  | Fetch _ _ :: rest => b :: flags_at_fetch b rest
  | _ :: rest => flags_at_fetch b rest
  end.

(** *** The page as the user drives it *)

(** The page between events: its state and the requests that were
    sent and have not been answered yet. *)
Record Session : Type := mkSession {
  world : World;
  inflight : list FormData
}.

(** The session after a click on "Save Vendor": the handler runs
    until it ends or is suspended at [await fetch]. *)
Definition after_submit (s : Session) : Session :=
  let '(w, evs, _) := handleSubmit None (world s) in
  mkSession w (inflight s ++ sent evs).

(** The session after the answer [r] to a request came in. *)
Definition after_answer (r : FetchResult) (rest : list FormData)
           (s : Session) : Session :=
  mkSession (handleSubmit_resume r (world s)).1.1 rest.

Inductive Action : Type :=
| Submit
| Answer (r : FetchResult)
| Edit.

(** One event of the page.
    - The submit button is rendered with [disabled={isSubmitting}],
      and each event sees the state the previous one left: a
      submission starts only while [isSubmitting] is [false].
    - Any request in flight may be answered.
    - Everything else the user does (editing a section, choosing a
      file, "Reset Form", the draft being saved) changes state other
      than [isSubmitting]. *)
Inductive step : Session → Action → Session → Prop :=
| step_submit s :
    isSubmitting (world s) = false →
    step s Submit (after_submit s)
| step_answer s r pre fd post :
    inflight s = (pre ++ fd :: post)%list →
    step s (Answer r) (after_answer r (pre ++ post) s)
| step_edit s w :
    isSubmitting w = isSubmitting (world s) →
    step s Edit (mkSession w (inflight s)).

(** The sessions a freshly mounted page ([useState(false)], nothing
    sent) can get to. *)
Inductive reachable : Session → Prop :=
| reachable_fresh s :
    isSubmitting (world s) = false → inflight s = [] → reachable s
| reachable_step s a s' :
    reachable s → step s a s' → reachable s'.

End Page.

End AddVendor.

(* ===================================================================== *)
(** ** Sample data used to run the definitions                           *)
(* ===================================================================== *)

Module Sample.
Import Token AddVendor.

(** Hooks whose state is as small as can be: the company name, and
    for every other section whether it is valid. *)
Definition hooks : Hooks := {|
  BasicsT := string;
  GeoT := bool;
  VolumetricT := bool;
  ChargesT := bool;
  ZoneRatesT := bool;
  NormalizedT := unit;
  FileT := string;
  DraftT := string;
  basics0 := "";
  geo0 := false;
  volumetric0 := false;
  charges0 := false;
  zoneRates0 := false;
  vendorBasics_validateAll := λ name, negb (bool_decide (name = ""));
  validateGeo := id;
  validateVolumetric := id;
  charges_validateAll := id;
  validateZoneRates := id;
  normalizeAndValidate := λ ok : bool, if ok then Some tt else None;
  companyName := id
|}.

(** The payload of the token example in the backend specification. *)
Definition payload : Json :=
  JObject [("customer", JObject [("_id", JString "507f1f77bcf86cd799439011");
                                 ("email", JString "user@example.com")]);
           ("iat", JNumber 1704974400);
           ("exp", JNumber 1705060800)].

(** A platform that decodes the segment [payload] to the payload
    above and nothing else. *)
Definition platform : Platform := {|
  trim := id;
  atob := λ s, if bool_decide (s = "payload=") then Some "json" else None;
  JSON_parse := λ s, if bool_decide (s = "json") then Some payload else None;
  now := 0
|}.

Definition storage_with (token : string) : Storage :=
  mkStorage None (Some token) None.

(** A filled-in form, nothing uploaded, a draft saved. *)
Definition filled (token : string) : World (H := hooks) :=
  mkWorld (mkForm ("Acme" : @BasicsT hooks) true true true true)
          road None false 0 (Some "draft") (storage_with token).

Definition good_token : string := "header.payload.signature".

(** The page as mounted: nothing filled in. *)
Definition blank (token : string) : World (H := hooks) :=
  mkWorld (form0 (H := hooks)) road None false 0 None (storage_with token).

(** A filled-in form with a price chart chosen. *)
Definition with_chart (token : string) : World (H := hooks) :=
  mkWorld (mkForm ("Acme" : @BasicsT hooks) true true true true)
          road (Some "chart.pdf") false 0 (Some "draft") (storage_with token).

(** The page with the form filled in, before any click. *)
Definition mounted : Session (H := hooks) :=
  mkSession (filled good_token) [].

Definition created : FetchResult :=
  Response true 201 (Some (JObject [("success", JBool true)])).
Definition refused : FetchResult :=
  Response false 400 (Some (JObject [("success", JBool false);
                                     ("message", JString "Duplicate vendor")])).

(** The scenario "zones = {N1, S1}; N1→S1 left unset", sent to the
    zone configuration endpoint. *)
Definition two_zones : list ZoneConfig.Zone :=
  [ZoneConfig.mkZone "N1" "North Zone 1" "North";
   ZoneConfig.mkZone "S1" "South Zone 1" "South"].

Definition one_unset : list ZoneConfig.PriceMatrixEntry :=
  [ZoneConfig.mkEntry "N1" "N1" (Some (50005 # 1000));
   ZoneConfig.mkEntry "N1" "S1" None;
   ZoneConfig.mkEntry "S1" "N1" (Some (130753 # 1000));
   ZoneConfig.mkEntry "S1" "S1" (Some (45 # 1))].

Definition config_request (pm : list ZoneConfig.PriceMatrixEntry)
  : ZoneConfig.Request :=
  ZoneConfig.mkRequest
    (ZoneConfig.mkBody "507f1f77bcf86cd799439011"
       (Some "North-South Express Routes") (Some two_zones) (Some pm))
    "507f1f77bcf86cd799439011".

End Sample.

(* ===================================================================== *)
(** ** Zone buttons (RegionSection.tsx, ZoneButton.tsx)                  *)
(* ===================================================================== *)

Module ZoneButtons.
Import ZoneSelector.

(** [isSelected={selectedZones.includes(zoneCode)}], shown by the button
    as [aria-pressed]. *)
Definition isSelected (st : SelectorState) (zoneCode : string) : bool :=
  bool_decide (zoneCode ∈ selectedZones st).

(** [onClick={() => onToggle(zoneCode)}] *)
Definition click (zoneCode : string) (st : SelectorState) : SelectorState :=
  handleZoneToggle zoneCode st.

(** The page renders one button per code of [ZONE_REGIONS], so the
    clicks a user can make are toggles of catalog codes. *)
Definition clicks (codes : list string) : SelectorState :=
  toggles codes initialSelector.

(** What the buttons keep true of the page. *)
Definition tidy (st : SelectorState) : Prop :=
  NoDup (selectedZones st)
  ∧ (∀ x, x ∈ selectedZones st → x ∈ catalog)
  ∧ showMaxWarning st = false.

(** [handleContinue]: where the page navigates to, if anywhere. *)
Definition handleContinue (st : SelectorState) : option string :=
  if (length (selectedZones st) =? 0)%nat then None else Some "/addvendor".

End ZoneButtons.

(* ===================================================================== *)
(** ** Charge cards (AdvancedChargesGrid.tsx)                            *)
(* ===================================================================== *)

Module ChargeCard.
Import ChargeField.

Inductive CardName : Type :=
| handlingCharges | rovCharges | codCharges | toPayCharges | appointmentCharges.

Global Instance CardName_eq_dec : EqDecision CardName.
Proof. solve_decision. Defined.

(** The fields of [ChargeCardData] the card reads. *)
Record ChargeCardData : Type := mkCard {
  currency : string;
  mode : string;
  unit : string;
  fixedAmount : number;
  variableRange : string;
  weightThreshold : number
}.

(** A call [onFieldChange(field, value)]. *)
Inductive FieldChange : Type :=
| SetCurrency (v : string)
| SetMode (v : string)
| SetUnit (v : string)
| SetFixedAmount (v : number)
| SetVariableRange (v : string)
| SetWeightThreshold (v : number).

(** [cardName !== 'codCharges' && cardName !== 'toPayCharges'] *)
Definition supportsVariablePercent (cardName : CardName) : bool :=
  negb (bool_decide (cardName = codCharges))
  && negb (bool_decide (cardName = toPayCharges)).

(** [data.currency === 'INR' && data.mode === 'FIXED'] *)
Definition isFixedRupee (data : ChargeCardData) : bool :=
  bool_decide (currency data = "INR") && bool_decide (mode data = "FIXED").

(** [data.currency === 'PERCENT' && data.mode === 'VARIABLE'] *)
Definition isVariablePercent (data : ChargeCardData) : bool :=
  bool_decide (currency data = "PERCENT")
  && bool_decide (mode data = "VARIABLE").

(** [supportsVariablePercent ? isFixedRupee : true] *)
Definition showFixed (cardName : CardName) (data : ChargeCardData) : bool :=
  if supportsVariablePercent cardName then isFixedRupee data else true.

(** [isVariablePercent && supportsVariablePercent] *)
Definition showVariable (cardName : CardName) (data : ChargeCardData) : bool :=
  isVariablePercent data && supportsVariablePercent cardName.

(** The "Fixed" and "Variable" pills; they are rendered only when
    [supportsVariablePercent]. *)
Definition clickFixed : list FieldChange :=
  [SetCurrency "INR"; SetMode "FIXED"].
Definition clickVariable : list FieldChange :=
  [SetCurrency "PERCENT"; SetMode "VARIABLE"].

Section NumberInputs.
Variable parseFloat : string → number.

(** [onFieldChange('fixedAmount', val === '' ? 0 : parseFloat(val))] *)
Definition fixedAmount_onChange (val : string) : list FieldChange :=
  [SetFixedAmount (if bool_decide (val = "") then Finite 0 else parseFloat val)].

(** [onFieldChange('weightThreshold', val === '' ? 0 : parseFloat(val))] *)
Definition weightThreshold_onChange (val : string) : list FieldChange :=
  [SetWeightThreshold
     (if bool_decide (val = "") then Finite 0 else parseFloat val)].
End NumberInputs.

(** A parent that stores the value in the field that is named, as
    [setCardField(cardName, field, value)] is used here. *)
Definition store (c : FieldChange) (data : ChargeCardData) : ChargeCardData :=
  match c with
  | SetCurrency v =>
      mkCard v (mode data) (unit data) (fixedAmount data)
             (variableRange data) (weightThreshold data)
  | SetMode v =>
      mkCard (currency data) v (unit data) (fixedAmount data)
             (variableRange data) (weightThreshold data)
  | SetUnit v =>
      mkCard (currency data) (mode data) v (fixedAmount data)
             (variableRange data) (weightThreshold data)
  | SetFixedAmount v =>
      mkCard (currency data) (mode data) (unit data) v
             (variableRange data) (weightThreshold data)
  | SetVariableRange v =>
      mkCard (currency data) (mode data) (unit data) (fixedAmount data)
             v (weightThreshold data)
  | SetWeightThreshold v =>
      mkCard (currency data) (mode data) (unit data) (fixedAmount data)
             (variableRange data) v
  end.

Definition store_all (cs : list FieldChange) (data : ChargeCardData)
  : ChargeCardData :=
  foldl (λ d c, store c d) data cs.

(** What a sequence of texts typed into a basic charge field leaves in
    a parent that keeps the number it is handed. *)
Definition typed (parseFloat : string → number) (vals : list string)
           (value : number) : number :=
  foldl (λ v val, SimpleChargeField_handleChange parseFloat keep val v)
        value vals.

End ChargeCard.

(* ===================================================================== *)
(** ** The token panel and "Reset Form" (pages/AddVendor.tsx)            *)
(* ===================================================================== *)

Module TokenPanel.
Import Token.

(** [tokenPanelOpen], [tokenValue] and [tokenPayload]; [None] is a
    [null] payload. *)
Record Panel : Type := mkPanel {
  tokenPanelOpen : bool;
  tokenValue : string;
  tokenPayload : option Json
}.

Section Show.
Variable atob : string → option string.
Variable JSON_parse : string → option Json.

(** [handleShowToken]: the panel state it sets and the error toasts it
    shows. *)
Definition handleShowToken (st : Storage) : Panel * list string :=
  let tok := getAuthToken st in
  if bool_decide (tok = "") then
    (mkPanel true "" None, ["No token found (login again?)"])
  else
    let payload :=
      if (2 <=? length (split_dot tok))%nat
      then base64UrlToJson atob JSON_parse (default "" (split_dot tok !! 1%nat))
      else None in
    (mkPanel true tok payload, []).
End Show.

(** The first truthy value of a list of candidates, the empty string
    when there is none: what a chain [a || b || ... || ''] computes. *)
Definition first_truthy (candidates : list (option Json)) : Json :=
  match filter (λ v, truthy v = true) candidates with
  | Some v :: _ => v
  | _ => JString ""
  end.

(** A store that holds no token: nothing, or the empty string. *)
Definition empty_store (o : option string) : Prop := default "" o = "".

End TokenPanel.

Module ResetForm.
Import Token AddVendor.

Section Reset.
Context `{Hooks, Platform}.

(** [handleReset]; [confirmed] is the answer to the [confirm(...)]
    dialog. *)
Definition handleReset (confirmed : bool) : M unit :=
  if negb confirmed then return_
  else
    bind (reset VendorBasics) (λ _,
    bind (reset PincodeLookup) (λ _,
    bind (reset Volumetric) (λ _,
    bind (reset Charges) (λ _,
    bind (reset ZoneRates) (λ _,
    bind setPriceChartFile_null (λ _,
    bind clearDraft (λ _,
    emit (ToastSuccess "Form reset")))))))).

(** How many of the five sections do not validate. *)
Definition failing_sections (f : Form) : nat :=
  length (filter (λ ok, ok = false)
            [vendorBasics_validateAll (basics f); validateGeo (geo f);
             validateVolumetric (volumetric f);
             charges_validateAll (charges f);
             validateZoneRates (zoneRates f)]).

End Reset.
End ResetForm.

(* ===================================================================== *)
(** ** Zone configuration controller (zoneConfiguration.controller.js)   *)
(* ===================================================================== *)

Module Controller.
Import ZoneConfig.

(** A stored configuration. *)
Record Config : Type := mkConfig {
  _id : string;
  cfg_customerID : string;
  cfg_configName : string;
  cfg_description : string;
  cfg_zones : list Zone;
  cfg_priceMatrix : list PriceMatrixEntry;
  cfg_status : string;
  cfg_version : Z;
  cfg_createdAt : nat;
  cfg_updatedAt : nat
}.

(** The body of an update: any of the fields may be given, [_id]
    included.  A field that is given holds a value of the type of the
    schema; a version is an integer that a double holds exactly. *)
Record Patch : Type := mkPatch {
  p_id : option string;
  p_customerID : option string;
  p_configName : option string;
  p_description : option string;
  p_zones : option (list Zone);
  p_priceMatrix : option (list PriceMatrixEntry);
  p_status : option string;
  p_version : option Z;
  p_createdAt : option nat;
  p_updatedAt : option nat
}.

(** [Object.assign(config, req.body)] *)
Definition assign (config : Config) (b : Patch) : Config :=
  mkConfig (default (_id config) (p_id b))
    (default (cfg_customerID config) (p_customerID b))
    (default (cfg_configName config) (p_configName b))
    (default (cfg_description config) (p_description b))
    (default (cfg_zones config) (p_zones b))
    (default (cfg_priceMatrix config) (p_priceMatrix b))
    (default (cfg_status config) (p_status b))
    (default (cfg_version config) (p_version b))
    (default (cfg_createdAt config) (p_createdAt b))
    (default (cfg_updatedAt config) (p_updatedAt b)).

(** The calls made on the model, and what the database answers: a read
    finds a document, finds none, or throws; a write goes through or
    throws. *)
Inductive DbOp : Type :=
| FindById (id : string)
| Save (config : Config)
| FindByIdAndDelete (id : string).

Inductive FindResult : Type :=
| Found (config : Config)
| NotFound
| FindError (message : string).

Inductive WriteResult : Type :=
| Written
| WriteError (message : string).

(** The [data] of a response. *)
Inductive Data : Type :=
| Whole (config : Config)
| Archived (id : string) (status : string) (updatedAt : nat).

(** [res.status(...).json({ success, message, data, error })] *)
Record Answer : Type := mkAnswer {
  status : nat;
  success : bool;
  message : option string;
  data : option Data;
  error : option string
}.

Definition fail (code : nat) (msg : string) : Answer :=
  mkAnswer code false (Some msg) None None.

Definition crash (msg err : string) : Answer :=
  mkAnswer 500 false (Some msg) None (Some err).

(** [exports.getOne], for the caller [user] ([req.user.customer._id]). *)
Definition getOne (user id : string) (found : FindResult)
  : list DbOp * Answer :=
  match found with
  | FindError e => ([FindById id], crash "Failed to fetch configuration" e)
  | NotFound => ([FindById id], fail 404 "Zone configuration not found")
  | Found config =>
      if negb (bool_decide (cfg_customerID config = user)) then
        ([FindById id],
         fail 403 "You don't have permission to access this configuration")
      else
        ([FindById id], mkAnswer 200 true None (Some (Whole config)) None)
  end.

(** The double nearest to an integer, a tie going to the even
    significand.  Integers below [2^53] in magnitude are doubles; with
    the leading bit at position [k >= 53], doubles are [2^(k-52)]
    apart. *)
Definition nearest_double (z : Z) : Z :=
  let k := Z.log2 (Z.abs z) in
  if (k <? 53)%Z then z
  else
    let u := (2 ^ (k - 52))%Z in
    let q := (z / u)%Z in
    let r := (z mod u)%Z in
    if (2 * r <? u)%Z then (q * u)%Z
    else if (u <? 2 * r)%Z then ((q + 1) * u)%Z
    else if Z.even q then (q * u)%Z
    else ((q + 1) * u)%Z.

(** [version += 1] on a number that holds an integer. *)
Definition increment (version : Z) : Z := nearest_double (version + 1).

(** [exports.update] *)
Definition update (user id : string) (b : Patch) (now : nat)
           (found : FindResult) (saved : WriteResult) : list DbOp * Answer :=
  match found with
  | FindError e => ([FindById id], crash "Failed to update configuration" e)
  | NotFound => ([FindById id], fail 404 "Zone configuration not found")
  | Found config =>
      if negb (bool_decide (cfg_customerID config = user)) then
        ([FindById id],
         fail 403 "You don't have permission to update this configuration")
      else
        let c1 := assign config b in
        let c2 := mkConfig (_id c1) (cfg_customerID c1) (cfg_configName c1)
                    (cfg_description c1) (cfg_zones c1) (cfg_priceMatrix c1)
                    (cfg_status c1) (increment (cfg_version c1))
                    (cfg_createdAt c1) now in
        match saved with
        | WriteError e =>
            ([FindById id; Save c2], crash "Failed to update configuration" e)
        | Written =>
            ([FindById id; Save c2],
             mkAnswer 200 true
               (Some "Zone configuration updated successfully")
               (Some (Whole c2)) None)
        end
  end.

(** [exports.delete]; [hard] is [req.query.hard]. *)
Definition delete (user id : string) (hard : option string) (now : nat)
           (found : FindResult) (written : WriteResult)
  : list DbOp * Answer :=
  match found with
  | FindError e => ([FindById id], crash "Failed to delete configuration" e)
  | NotFound => ([FindById id], fail 404 "Zone configuration not found")
  | Found config =>
      if negb (bool_decide (cfg_customerID config = user)) then
        ([FindById id],
         fail 403 "You don't have permission to delete this configuration")
      else if bool_decide (hard = Some "true") then
        match written with
        | WriteError e =>
            ([FindById id; FindByIdAndDelete id],
             crash "Failed to delete configuration" e)
        | Written =>
            ([FindById id; FindByIdAndDelete id],
             mkAnswer 200 true
               (Some "Zone configuration deleted permanently") None None)
        end
      else
        let c := mkConfig (_id config) (cfg_customerID config)
                   (cfg_configName config) (cfg_description config)
                   (cfg_zones config) (cfg_priceMatrix config)
                   "archived" (cfg_version config) (cfg_createdAt config) now in
        match written with
        | WriteError e =>
            ([FindById id; Save c], crash "Failed to delete configuration" e)
        | Written =>
            ([FindById id; Save c],
             mkAnswer 200 true
               (Some "Zone configuration archived successfully")
               (Some (Archived (_id c) (cfg_status c) (cfg_updatedAt c))) None)
        end
  end.

(** The three handlers that work on one stored configuration. *)
Inductive Handler : Type :=
| GetOne
| Update (b : Patch)
| Delete (hard : option string).

Definition handle (h : Handler) (user id : string) (now : nat)
           (found : FindResult) (written : WriteResult)
  : list DbOp * Answer :=
  match h with
  | GetOne => getOne user id found
  | Update b => update user id b now found written
  | Delete hard => delete user id hard now found written
  end.

(** The operations of a run that change the collection. *)
Definition is_write (op : DbOp) : bool :=
  match op with FindById _ => false | _ => true end.

Definition writes (ops : list DbOp) : list DbOp :=
  filter (λ op, is_write op = true) ops.

End Controller.

(* ===================================================================== *)
(** ** Creating a configuration (the two versions of [exports.create])   *)
(* ===================================================================== *)

Module CreateController.
Import Controller.






End CreateController.

(* ===================================================================== *)
(** ** More sample data                                                  *)
(* ===================================================================== *)

Module Examples.
Import Token AddVendor.

(** A payload whose [customer] is [null] while [id] holds an
    identifier. *)
Definition null_customer_payload : Json :=
  JObject [("customer", JNull); ("id", JString "507f1f77bcf86cd799439011")].

Definition null_customer_platform : Platform := {|
  trim := id;
  atob := λ s, if bool_decide (s = "payload=") then Some "json" else None;
  JSON_parse := λ s, if bool_decide (s = "json")
                     then Some null_customer_payload else None;
  now := 0
|}.

(** A stored configuration of customer [u1]. *)
Definition stored : Controller.Config :=
  Controller.mkConfig "65a1" "u1" "North-South Express Routes" ""
    Sample.two_zones Sample.one_unset "active" 1 100 100.

(** The filled-in form of a vendor that ships by air. *)
Definition by_air : World (H := Sample.hooks) :=
  mkWorld (mkForm ("Acme" : @BasicsT Sample.hooks) true true true true)
          air None false 0 (Some "draft")
          (Sample.storage_with Sample.good_token).

Definition no_patch : Controller.Patch :=
  Controller.mkPatch None None None None None None None None None None.


Definition hand_over : Controller.Patch :=
  Controller.mkPatch None (Some "u2") None None None None None (Some 7%Z)
                     None (Some 5).

End Examples.

(* ===================================================================== *)
(** * Properties                                                        *)
(* ===================================================================== *)

Local Open Scope list_scope.
Local Open Scope nat_scope.

(** ** Zone selection *)

Module ZoneSelectorFacts.
Import ZoneSelector.

Lemma filter_other_length (c : string) (l : list string) :
  length (filter (λ zone, zone ≠ c) l) ≤ length l.
Proof. apply length_filter. Qed.

Lemma handleZoneToggle_bound c st :
  length (selectedZones st) ≤ MAX_ZONES →
  length (selectedZones (handleZoneToggle c st)) ≤ MAX_ZONES.
Proof.
  intros Hle. unfold handleZoneToggle.
  case_bool_decide as Hin; simpl.
  - etrans; [apply filter_other_length | exact Hle].
  - case_decide as Hfull; simpl; [exact Hle |].
    rewrite length_app. simpl. lia.
Qed.

Lemma toggles_bound codes : ∀ st,
  length (selectedZones st) ≤ MAX_ZONES →
  length (selectedZones (toggles codes st)) ≤ MAX_ZONES.
Proof.
  induction codes as [|c codes IH]; intros st Hle; [exact Hle |].
  apply IH, handleZoneToggle_bound, Hle.
Qed.

(** A selection never lists a code twice. *)
Lemma handleZoneToggle_NoDup c st :
  NoDup (selectedZones st) → NoDup (selectedZones (handleZoneToggle c st)).
Proof.
  intros Hnd. unfold handleZoneToggle.
  case_bool_decide as Hin; simpl.
  - by apply NoDup_filter.
  - case_decide; simpl; [done |].
    apply NoDup_app. split_and!; [done | | apply NoDup_singleton].
    intros x Hx ->%list_elem_of_singleton. done.
Qed.

Lemma toggles_NoDup codes : ∀ st,
  NoDup (selectedZones st) → NoDup (selectedZones (toggles codes st)).
Proof.
  induction codes as [|c codes IH]; intros st Hnd; [exact Hnd |].
  apply IH, handleZoneToggle_NoDup, Hnd.
Qed.

Lemma catalog_size : length catalog = MAX_ZONES.
Proof. reflexivity. Qed.

(** C4. Starting from a selection of at most 28 zones, no sequence of
    toggles makes it larger; a toggle on a selected code removes it
    and hides the warning, a toggle on an unselected code appends it
    while fewer than 28 are selected, and with 28 selected it leaves
    the selection as it is and raises the limit warning. *)
Theorem toggle_respects_limit (st : SelectorState) :
  length (selectedZones st) ≤ MAX_ZONES →
  (∀ codes, length (selectedZones (toggles codes st)) ≤ MAX_ZONES)
  ∧ (∀ c, c ∈ selectedZones st →
       ∀ z, z ∈ selectedZones (handleZoneToggle c st)
            ↔ z ∈ selectedZones st ∧ z ≠ c)
  ∧ (∀ c, c ∉ selectedZones st →
       length (selectedZones st) < MAX_ZONES →
       selectedZones (handleZoneToggle c st) = selectedZones st ++ [c])
  ∧ (∀ c, c ∉ selectedZones st →
       length (selectedZones st) = MAX_ZONES →
       handleZoneToggle c st = mkSelector (selectedZones st) true).
Proof.
  intros Hle. split_and!.
  - intros codes. by apply toggles_bound.
  - intros c Hin z. unfold handleZoneToggle.
    rewrite bool_decide_eq_true_2 by done. simpl.
    rewrite list_elem_of_filter. tauto.
  - intros c Hnin Hlt. unfold handleZoneToggle.
    rewrite bool_decide_eq_false_2 by done.
    case_decide; [lia | done].
  - intros c Hnin Heq. unfold handleZoneToggle.
    rewrite bool_decide_eq_false_2 by done.
    case_decide; [done | lia].
Qed.

(** The whole catalog selected, then one more code toggled. *)
Lemma toggle_respects_limit_witness :
  length (selectedZones (toggles catalog initialSelector)) ≤ MAX_ZONES
  ∧ handleZoneToggle "N7" (toggles catalog initialSelector)
    = mkSelector catalog true.
Proof.
  assert (Hle : length (selectedZones (toggles catalog initialSelector))
                ≤ MAX_ZONES) by (vm_compute; lia).
  split; [exact Hle |].
  destruct (toggle_respects_limit _ Hle) as (_ & _ & _ & Hfull).
  rewrite (Hfull "N7"); [reflexivity | | reflexivity].
  apply (bool_decide_unpack _). vm_compute. exact I.
Defined.

End ZoneSelectorFacts.

(** ** Zone codes *)

Module ZoneCodeFacts.
Import ZoneSelector ZoneCode.

(** Every code of the catalog passes the pattern. *)
Lemma validZonePattern_accepts_catalog (c : string) :
  c ∈ catalog → validZonePattern_test c = true.
Proof.
  revert c. apply Forall_forall.
  apply (bool_decide_unpack _). vm_compute. exact I.
Qed.

Lemma digit_1_6_inv (d : ascii) :
  digit_1_6 d = true → d ∈ ["1"; "2"; "3"; "4"; "5"; "6"]%char.
Proof.
  unfold digit_1_6. intros [Hlo Hhi]%andb_true_iff.
  apply Nat.leb_le in Hlo, Hhi.
  rewrite <- (ascii_nat_embedding d).
  assert (Hn : nat_of_ascii d ∈ seq 49 6).
  { apply elem_of_seq. lia. }
  revert Hn. generalize (nat_of_ascii d). intros n Hn.
  simpl in Hn. set_unfold. 
  destruct Hn as [->|[->|[->|[->|[->|[->|[]]]]]]]; vm_compute; tauto.
Qed.

(** The pattern accepts exactly the 36 codes made of one of the six
    prefixes and a digit from 1 to 6. *)
Lemma validZonePattern_test_accepted (code : string) :
  validZonePattern_test code = true ↔ code ∈ accepted.
Proof.
  split.
  - destruct code as [|p [|d [|e [|? ?]]]]; simpl; try discriminate.
    + intros [Hp Hd]%andb_true_iff.
      apply bool_decide_eq_true in Hp. apply digit_1_6_inv in Hd.
      set_unfold.
      destruct Hp as [->|[->|[->|[->|[->|[]]]]]];
        destruct Hd as [->|[->|[->|[->|[->|[->|[]]]]]]];
        apply (bool_decide_unpack _); vm_compute; exact I.
    + intros [[Hp Hd]%andb_true_iff He]%andb_true_iff.
      apply bool_decide_eq_true in Hp, Hd. subst p d.
      apply digit_1_6_inv in He. set_unfold.
      destruct He as [->|[->|[->|[->|[->|[->|[]]]]]]];
        apply (bool_decide_unpack _); vm_compute; exact I.
  - revert code. apply Forall_forall.
    apply (bool_decide_unpack _). vm_compute. exact I.
Qed.

(** C5. The pattern [^(N|S|E|W|NE|C)[1-6]$] accepts codes that the
    catalog does not contain: E5, W6, NE5 and C6 pass the zone-code
    check although no region offers them. *)
Theorem validZonePattern_accepts_outside_catalog :
  Forall (λ c, validZonePattern_test c = true ∧ c ∉ catalog)
         ["E5"; "W6"; "NE5"; "C6"].
Proof.
  apply (bool_decide_unpack _). vm_compute. exact I.
Qed.

End ZoneCodeFacts.

(** ** Zone configuration validation *)

Module ZoneConfigFacts.
Import ZoneCode ZoneConfig.

Lemma Qltb_lt (x y : Q) : Qltb x y = true ↔ (x < y)%Q.
Proof.
  unfold Qltb. rewrite negb_true_iff, <- not_true_iff_false, Qle_bool_iff.
  split; [apply Qnot_le_lt | apply Qlt_not_le].
Qed.

Lemma Qltb_ge (x y : Q) : Qltb x y = false ↔ (y <= x)%Q.
Proof. unfold Qltb. rewrite negb_false_iff. apply Qle_bool_iff. Qed.

Lemma includes_in (S : list string) (c : string) :
  includes S c = true ↔ c ∈ S.
Proof. apply bool_decide_eq_true. Qed.

Lemma checkZoneCodes_None (zs : list Zone) :
  checkZoneCodes zs = None
  ↔ Forall (λ z, validZonePattern_test (zoneCode z) = true) zs.
Proof.
  induction zs as [|z zs IH]; simpl.
  - split; [constructor | done].
  - destruct (validZonePattern_test (zoneCode z)) eqn:Hz; simpl.
    + rewrite IH, Forall_cons. tauto.
    + split; [done |]. intros [Hz' _]%Forall_cons. congruence.
Qed.

(** The loop over the matrix lets exactly the lists of acceptable
    entries through. *)
Lemma checkPriceMatrix_None (S : list string) (pm : list PriceMatrixEntry) :
  checkPriceMatrix S pm = None ↔ Forall (entry_ok S) pm.
Proof.
  induction pm as [|e pm IH]; simpl.
  - split; [constructor | done].
  - rewrite Forall_cons. unfold entry_ok at 1.
    destruct (includes S (fromZone e)) eqn:Hf; simpl.
    2:{ apply not_true_iff_false in Hf. rewrite includes_in in Hf.
        split; [done | tauto]. }
    destruct (includes S (toZone e)) eqn:Ht; simpl.
    2:{ apply not_true_iff_false in Ht. rewrite includes_in in Ht.
        split; [done | tauto]. }
    apply includes_in in Hf, Ht.
    destruct (price e) as [p|].
    + destruct (Qltb p 0) eqn:Hneg; simpl.
      { apply Qltb_lt in Hneg. split; [done |].
        intros [(_ & _ & Hp) _]. destruct (Hp p eq_refl) as [Hp0 _].
        by apply Qle_not_lt in Hp0. }
      destruct (Qltb MAX_PRICE p) eqn:Hbig; simpl.
      { apply Qltb_lt in Hbig. split; [done |].
        intros [(_ & _ & Hp) _]. destruct (Hp p eq_refl) as [_ Hp1].
        by apply Qle_not_lt in Hp1. }
      apply Qltb_ge in Hneg, Hbig. rewrite IH.
      split; [| tauto]. intros Hall. split; [| done].
      split_and!; [done | done |]. by intros ? [= <-].
    + rewrite IH. split; [| tauto]. intros Hall. split; [| done].
      split_and!; done.
Qed.

(** An unacceptable entry is one of three kinds. *)
Lemma not_all_ok (S : list string) (pm : list PriceMatrixEntry) :
  ¬ Forall (entry_ok S) pm
  ↔ foreign_entry S pm ∨ negative_entry pm ∨ oversized_entry pm.
Proof.
  split.
  - induction pm as [|e pm IH]; intros Hnot.
    { destruct Hnot. constructor. }
    destruct (decide (fromZone e ∈ S)) as [Hf|Hf].
    2:{ left. exists e. split; [left | by left]. }
    destruct (decide (toZone e ∈ S)) as [Ht|Ht].
    2:{ left. exists e. split; [left | by right]. }
    destruct (price e) as [p|] eqn:Hp.
    + destruct (Qlt_le_dec p 0) as [Hneg|Hpos].
      { right. left. exists e, p. split_and!; [left | done | done]. }
      destruct (Qlt_le_dec MAX_PRICE p) as [Hbig|Hsmall].
      { right. right. exists e, p. split_and!; [left | done | done]. }
      assert (Hrest : ¬ Forall (entry_ok S) pm).
      { intros Hall. apply Hnot. constructor; [| done].
        split_and!; [done | done |]. intros q Hq.
        rewrite Hp in Hq. by injection Hq as <-. }
      destruct (IH Hrest) as [(x & Hx & ?)|[(x & q & Hx & ?)|(x & q & Hx & ?)]].
      * left. exists x. split; [by right | done].
      * right. left. exists x, q. split; [by right | done].
      * right. right. exists x, q. split; [by right | done].
    + assert (Hrest : ¬ Forall (entry_ok S) pm).
      { intros Hall. apply Hnot. constructor; [| done].
        split_and!; [done | done |]. intros q Hq. congruence. }
      destruct (IH Hrest) as [(x & Hx & ?)|[(x & q & Hx & ?)|(x & q & Hx & ?)]].
      * left. exists x. split; [by right | done].
      * right. left. exists x, q. split; [by right | done].
      * right. right. exists x, q. split; [by right | done].
  - intros Hbad Hall. rewrite Forall_forall in Hall.
    destruct Hbad as [(e & He & Hz)|[(e & p & He & Hp & Hlt)|(e & p & He & Hp & Hlt)]];
      destruct (Hall e He) as (Hf & Ht & Hprice).
    + tauto.
    + destruct (Hprice p Hp) as [H0 _]. by apply Qle_not_lt in H0.
    + destruct (Hprice p Hp) as [_ H1]. by apply Qle_not_lt in H1.
Qed.

(** Once the checks on the customer, the name and the zones have
    passed and the matrix is an array, the loop over the matrix decides. *)
Lemma validateZoneConfig_matrix req zs pm :
  header_ok req zs →
  priceMatrix (body req) = Some pm →
  validateZoneConfig req
  = default Next (checkPriceMatrix (zoneCode <$> zs) pm).
Proof.
  intros (Hid & Hname & Hzs & Hlen & Hcodes) Hpm.
  unfold validateZoneConfig.
  rewrite bool_decide_eq_true_2 by done. simpl.
  rewrite Hname, Hzs.
  replace (length zs =? 0) with false by (symmetry; apply Nat.eqb_neq; lia).
  replace (28 <? length zs) with false by (symmetry; apply Nat.ltb_ge; lia).
  simpl. apply checkZoneCodes_None in Hcodes. rewrite Hcodes, Hpm.
  by destruct (checkPriceMatrix _ pm).
Qed.

(** C1 as the specification words it does not hold: the request with
    zones N1 and S1 and the pair (N1, S1) left unset passes, although
    an in-scope pair has no price. *)
Lemma validate_unset_pair_passes :
  ¬ (validateZoneConfig (Sample.config_request Sample.one_unset) ≠ Next
     ↔ spec_must_fail (zoneCode <$> Sample.two_zones) Sample.one_unset).
Proof.
  intros [_ Hfail]. apply Hfail; [| reflexivity].
  left. exists "N1", "S1".
  split_and!; [| | reflexivity];
    apply (bool_decide_unpack _); vm_compute; exact I.
Qed.

(** C1, amended. For a request that passed the checks on the customer,
    the configuration name and the zones, and whose price matrix is an
    array, validation fails if and only if some entry names a zone
    outside the submitted zones, or has a negative price, or has a price
    above 999999.999; it succeeds exactly when every entry names
    submitted zones only and has a price that is null or within
    [0, 999999.999]. Pairs without an entry and entries without a price
    are let through. *)
Theorem validateZoneConfig_matrix_iff req zs pm :
  header_ok req zs →
  priceMatrix (body req) = Some pm →
  let S := zoneCode <$> zs in
  (validateZoneConfig req ≠ Next
   ↔ foreign_entry S pm ∨ negative_entry pm ∨ oversized_entry pm)
  ∧ (validateZoneConfig req = Next ↔ Forall (entry_ok S) pm).
Proof.
  intros Hhead Hpm. simpl.
  rewrite (validateZoneConfig_matrix req zs pm Hhead Hpm).
  generalize (zoneCode <$> zs). intros S.
  assert (Hnext : default Next (checkPriceMatrix S pm) = Next
                  ↔ Forall (entry_ok S) pm).
  { rewrite <- checkPriceMatrix_None.
    destruct (checkPriceMatrix S pm) as [r|] eqn:Hc; simpl; [| done].
    split; [| done]. intros ->. exfalso.
    clear -Hc. induction pm as [|e pm IH]; simpl in Hc; [done |].
    repeat (match type of Hc with
            | context [if ?b then _ else _] => destruct b
            | context [match price ?e with _ => _ end] => destruct (price e)
            end; try done). }
  split; [| exact Hnext].
  rewrite <- not_all_ok, Hnext. done.
Qed.

(** The scenario of the specification with every pair priced passes;
    so does the one with a pair left unset. *)
Lemma validateZoneConfig_matrix_iff_witness :
  header_ok (Sample.config_request Sample.one_unset) Sample.two_zones
  ∧ validateZoneConfig (Sample.config_request Sample.one_unset) = Next
  ∧ Forall (entry_ok (zoneCode <$> Sample.two_zones)) Sample.one_unset.
Proof.
  assert (Hhead : header_ok (Sample.config_request Sample.one_unset)
                            Sample.two_zones).
  { split_and!; try reflexivity; try (simpl; lia).
    repeat constructor. }
  split; [exact Hhead |]. split; [reflexivity |].
  apply (validateZoneConfig_matrix_iff _ _ _ Hhead eq_refl). reflexivity.
Defined.

End ZoneConfigFacts.

(** ** Rate matrix store and normalizer *)

Module RateMatrixFacts.
Import RateMatrix.

Section Tabulate.
Context {V : Type} (g : string * string → V).

(** A map tabulated from a list of keys. *)
Lemma tabulate_lookup (l : list (string * string)) (k : string * string) :
  (list_to_map ((λ k, (k, g k)) <$> l) : gmap (string * string) V) !! k
  = if decide (k ∈ l) then Some (g k) else None.
Proof.
  induction l as [|x l IH].
  - rewrite fmap_nil, list_to_map_nil, lookup_empty.
    by rewrite decide_False by apply not_elem_of_nil.
  - rewrite fmap_cons, list_to_map_cons, lookup_insert. simpl. destruct (decide (x = k)) as [->|Hne].
    + rewrite decide_True by left. done.
    + rewrite IH. destruct (decide (k ∈ l)) as [Hin|Hnin].
      * rewrite decide_True by (by right). done.
      * rewrite decide_False; [done |].
        intros [->|?]%elem_of_cons; done.
Qed.

Lemma tabulate_size (l : list (string * string)) :
  NoDup l →
  size (list_to_map ((λ k, (k, g k)) <$> l) : gmap (string * string) V)
  = length l.
Proof.
  induction 1 as [|x l Hx Hnd IH]; [apply map_size_empty |].
  rewrite fmap_cons, list_to_map_cons. simpl.
  rewrite map_size_insert_None, IH; [done |].
  rewrite tabulate_lookup. by rewrite decide_False.
Qed.
End Tabulate.

Lemma NoDup_list_prod (l l' : list string) :
  NoDup l → NoDup l' → NoDup (list_prod l l').
Proof.
  intros Hl Hl'. induction Hl as [|x l Hx Hnd IH]; simpl; [constructor |].
  apply NoDup_app. split_and!.
  - change (map (λ y, (x, y)) l') with (pair x <$> l').
    apply NoDup_fmap_2; [| done]. by intros ?? [= ->].
  - change (map (λ y, (x, y)) l') with (pair x <$> l').
    intros [a b] [y [[= -> ->] _]]%list_elem_of_fmap Hin.
    apply list_elem_of_In, in_prod_iff in Hin as [Hin _].
    by apply list_elem_of_In in Hin.
  - exact IH.
Qed.

Lemma elem_of_list_prod (l l' : list string) (f t : string) :
  (f, t) ∈ list_prod l l' ↔ f ∈ l ∧ t ∈ l'.
Proof. rewrite !list_elem_of_In. apply in_prod_iff. Qed.

(** What [initialize] leaves at a pair. *)
Lemma initialize_lookup (F T : list string) (old : Matrix) (f t : string) :
  initialize F T old !! (f, t)
  = if decide (f ∈ F ∧ t ∈ T) then Some (get old f t) else None.
Proof.
  unfold initialize.
  rewrite (tabulate_lookup (λ k, get old k.1 k.2)). simpl.
  destruct (decide (f ∈ F ∧ t ∈ T)) as [Hin|Hnin].
  - rewrite decide_True; [done |]. by apply elem_of_list_prod.
  - rewrite decide_False; [done |]. by rewrite elem_of_list_prod.
Qed.

Lemma initialize_size (F T : list string) (old : Matrix) :
  NoDup F → NoDup T → size (initialize F T old) = length F * length T.
Proof.
  intros HF HT. unfold initialize.
  rewrite (tabulate_size (λ k, get old k.1 k.2)) by by apply NoDup_list_prod.
  apply length_prod.
Qed.

(** C3. For a selection [S] of at most 28 distinct zones, the matrix
    initialized over S×S has exactly |S|² entries, self-pairs included;
    a pair that had no entry gets one with the price absent, a pair that
    had an entry keeps what it held, no entry is left for a pair with a
    zone outside [S], and initialized from nothing every entry is unset. *)
Theorem initialize_square (S : list string) (old : Matrix) :
  NoDup S →
  length S ≤ ZoneSelector.MAX_ZONES →
  size (initialize S S old) = length S * length S
  ∧ (∀ f t, f ∈ S → t ∈ S → is_Some (initialize S S old !! (f, t)))
  ∧ (∀ f t, f ∈ S → t ∈ S → old !! (f, t) = None →
            initialize S S old !! (f, t) = Some None)
  ∧ (∀ f t v, f ∈ S → t ∈ S → old !! (f, t) = Some v →
              initialize S S old !! (f, t) = Some v)
  ∧ (∀ f t, f ∉ S ∨ t ∉ S → initialize S S old !! (f, t) = None)
  ∧ (∀ k v, initialize S S ∅ !! k = Some v → v = None).
Proof.
  intros Hnd _. split_and!.
  - by apply initialize_size.
  - intros f t Hf Ht. rewrite initialize_lookup, decide_True by done. eauto.
  - intros f t Hf Ht Hold. rewrite initialize_lookup, decide_True by done.
    unfold get. by rewrite Hold.
  - intros f t v Hf Ht Hold. rewrite initialize_lookup, decide_True by done.
    unfold get. by rewrite Hold.
  - intros f t Hout. rewrite initialize_lookup, decide_False; [done |]. tauto.
  - intros [f t] v. rewrite initialize_lookup.
    case_decide; [| done]. unfold get. rewrite lookup_empty. by intros [= <-].
Qed.

(** Zones N1 and S1: four entries. *)
Lemma initialize_square_witness :
  size (initialize ["N1"; "S1"] ["N1"; "S1"] ∅) = 4
  ∧ initialize ["N1"; "S1"] ["N1"; "S1"] ∅ !! ("N1", "S1") = Some None.
Proof.
  assert (Hnd : NoDup ["N1"; "S1"]).
  { apply (bool_decide_unpack _). vm_compute. exact I. }
  assert (Hle : length ["N1"; "S1"] ≤ ZoneSelector.MAX_ZONES).
  { vm_compute. lia. }
  destruct (initialize_square ["N1"; "S1"] ∅ Hnd Hle) as (Hsize & _ & Hnew & _).
  split; [exact Hsize |].
  apply Hnew; [| | apply lookup_empty];
    apply (bool_decide_unpack _); vm_compute; exact I.
Defined.

(** A price in hundredths is left alone. *)
Lemma round2_hundredths (n : Z) : round2 (n # 100) = n # 100.
Proof.
  unfold round2. f_equal. unfold Qfloor, Qplus, Qmult. simpl.
  symmetry. apply Z.div_unique with (r := 100%Z); lia.
Qed.

Lemma round2_idempotent (q : Q) : round2 (round2 q) = round2 q.
Proof. apply round2_hundredths. Qed.

(** Half-up: the result is [n / 100] for the integer [n] with
    [n ≤ 100 q + 1/2 < n + 1]. *)
Lemma round2_half_up (q : Q) :
  ∃ n : Z, round2 q = n # 100
           ∧ (inject_Z n <= q * 100 + (1 # 2) < inject_Z n + 1)%Q.
Proof.
  exists (Qfloor (q * 100 + (1 # 2))). split; [reflexivity |]. split.
  - apply Qfloor_le.
  - eapply Qlt_le_trans; [apply Qlt_floor |].
    rewrite inject_Z_plus. apply Qle_refl.
Qed.

Lemma normalize_lookup (m : Matrix) (k : string * string) :
  normalize m !! k = fmap round2 <$> (m !! k).
Proof. unfold normalize. apply lookup_fmap. Qed.

(** C2. Normalization rounds every present price half-up to
    hundredths (50.005 to 50.01, 130.753 to 130.75), keeps the shape
    of the matrix (same pairs, unset entries stay unset), and is
    idempotent. The input is a value and is not changed. *)
Theorem normalize_half_up_idempotent :
  (∀ (m : Matrix) k, normalize m !! k = fmap round2 <$> (m !! k))
  ∧ (∀ m : Matrix, dom (normalize m) = dom m)
  ∧ (∀ q, ∃ n : Z, round2 q = n # 100
            ∧ (inject_Z n <= q * 100 + (1 # 2) < inject_Z n + 1)%Q)
  ∧ round2 (50005 # 1000) = 5001 # 100
  ∧ round2 (130753 # 1000) = 13075 # 100
  ∧ (∀ m : Matrix, normalize (normalize m) = normalize m).
Proof.
  split_and!.
  - apply normalize_lookup.
  - intros m. unfold normalize. apply dom_fmap_L.
  - apply round2_half_up.
  - reflexivity.
  - reflexivity.
  - intros m. apply map_eq. intros k. rewrite !normalize_lookup.
    destruct (m !! k) as [[p|]|]; simpl; [| done | done].
    by rewrite round2_idempotent.
Qed.

End RateMatrixFacts.

(** ** Basic charge fields *)

Module ChargeFieldFacts.
Import ChargeField.

Section HandleChangeFacts.
Context {Store : Type}.
Variable parseFloat : string → number.
Variable onChange : number → Store → Store.

(** The two components handle a change the same way. *)
Lemma handleChange_same (val : string) (st : Store) :
  SimpleField_handleChange parseFloat onChange val st
  = SimpleChargeField_handleChange parseFloat onChange val st.
Proof. reflexivity. Qed.

(** C10. In both basic-charge fields, an empty input hands 0 to the
    store, an input that [parseFloat] turns into [NaN] leaves the store
    as it was, and any other input hands over the parsed number; the
    handler is defined on every input string. *)
Theorem handleChange_cases (val : string) (st : Store) :
  let after := SimpleChargeField_handleChange parseFloat onChange val st in
  SimpleField_handleChange parseFloat onChange val st = after
  ∧ (val = "" → after = onChange (Finite 0) st)
  ∧ (val ≠ "" → isNaN (parseFloat val) = true → after = st)
  ∧ (val ≠ "" → isNaN (parseFloat val) = false →
     after = onChange (parseFloat val) st).
Proof.
  simpl. split; [reflexivity |].
  unfold SimpleChargeField_handleChange. split_and!.
  - intros ->. reflexivity.
  - intros Hne Hnan. rewrite bool_decide_eq_false_2 by done. by rewrite Hnan.
  - intros Hne Hnum. rewrite bool_decide_eq_false_2 by done. by rewrite Hnum.
Qed.
End HandleChangeFacts.

(** A field showing 7: cleared it shows 0, "abc" leaves 7, "12.5"
    gives 12.5. *)
Lemma handleChange_cases_witness :
  SimpleChargeField_handleChange parseFloat_sample keep "" (Finite 7) = Finite 0
  ∧ SimpleChargeField_handleChange parseFloat_sample keep "abc" (Finite 7) = Finite 7
  ∧ SimpleField_handleChange parseFloat_sample keep "12.5" (Finite 7)
    = Finite (125 # 10).
Proof.
  split_and!.
  - apply (handleChange_cases parseFloat_sample keep "" (Finite 7)).
    reflexivity.
  - apply (handleChange_cases parseFloat_sample keep "abc" (Finite 7));
      [discriminate | reflexivity].
  - rewrite (proj1 (handleChange_cases parseFloat_sample keep "12.5" (Finite 7))).
    apply (handleChange_cases parseFloat_sample keep "12.5" (Finite 7));
      [discriminate | reflexivity].
Defined.

End ChargeFieldFacts.

(** ** Reading the account identifier from the token *)

Module TokenFacts.
Import Token.

Section DecodeFacts.
Variable atob : string → option string.
Variable JSON_parse : string → option Json.

Lemma or_else_falsy (a b : option Json) :
  truthy a = false → or_else a b = b.
Proof. unfold or_else. by intros ->. Qed.

(** Without a token nothing is decoded. *)
Lemma getCustomerIDFromToken_absent (st : Storage) :
  getAuthToken st = "" →
  getCustomerIDFromToken atob JSON_parse st = Some (JString "").
Proof. unfold getCustomerIDFromToken. by intros ->. Qed.

(** A token that is not made of at least two dot-separated segments. *)
Lemma getCustomerIDFromToken_one_segment (st : Storage) :
  length (split_dot (getAuthToken st)) < 2 →
  getCustomerIDFromToken atob JSON_parse st = Some (JString "").
Proof.
  intros Hlen%Nat.ltb_lt. unfold getCustomerIDFromToken.
  rewrite Hlen. by rewrite orb_true_r.
Qed.

(** When none of the places holds a truthy value, the function ends
    with the empty string, or with the [TypeError] on a null
    [customer]. *)
Lemma getCustomerIDFromToken_no_claim (st : Storage) :
  Forall (λ v, truthy v = false) (claims (payloadOf atob JSON_parse (getAuthToken st))) →
  getCustomerIDFromToken atob JSON_parse st = Some (JString "")
  ∨ getCustomerIDFromToken atob JSON_parse st = None.
Proof.
  intros Hall. unfold getCustomerIDFromToken.
  destruct (_ || _); [by left |].
  unfold claims in Hall.
  repeat (apply Forall_cons in Hall as [? Hall]).
  repeat match goal with
         | Hv : truthy ?v = false |- _ => rewrite (or_else_falsy v _ Hv)
         end.
  destruct (prop _ "customer") as [[]|]; cbn; auto.
Qed.

(** A second segment that does not decode gives the empty payload. *)
Lemma payloadOf_undecodable (token : string) :
  base64UrlToJson atob JSON_parse (default "" (split_dot token !! 1)) = None →
  payloadOf atob JSON_parse token = Some (JObject []).
Proof. unfold payloadOf. by intros ->. Qed.

Lemma claims_empty_object :
  Forall (λ v, truthy v = false) (claims (Some (JObject []))).
Proof. repeat constructor. Qed.

(** A null [customer] in the payload of a two-segment token makes the
    function throw, whatever the other places hold. *)
Lemma getCustomerIDFromToken_null_customer (st : Storage) :
  getAuthToken st ≠ "" →
  2 ≤ length (split_dot (getAuthToken st)) →
  prop (payloadOf atob JSON_parse (getAuthToken st)) "customer" = Some JNull →
  getCustomerIDFromToken atob JSON_parse st = None.
Proof.
  intros Htok Hlen Hnull. unfold getCustomerIDFromToken.
  rewrite bool_decide_eq_false_2 by done.
  replace (length (split_dot (getAuthToken st)) <? 2) with false
    by (symmetry; apply Nat.ltb_ge; lia).
  simpl. by rewrite Hnull.
Qed.

End DecodeFacts.
End TokenFacts.

(** ** The submission flow *)

Module AddVendorFacts.
Import Token AddVendor.

Section Runs.
Context `{Hooks, Platform}.

Local Arguments truthy : simpl never.
Local Arguments prop : simpl never.
Local Arguments getAuthToken : simpl never.
Local Arguments getCustomerIDFromToken : simpl never.
Local Arguments failure_message : simpl never.

(** Unfolds the handler's building blocks. *)
Ltac unfold_steps :=
  unfold handleSubmit, handleSubmit_resume, try_catch_finally, submitBody,
    afterResponse, customerID_of_token, fetch, unexpected, validateAll, call,
    setIsSubmitting, toast_error, clearDraft, reset, setPriceChartFile_null,
    setRefreshTrigger_incr, bind, emit, read, write, ret, return_, throw.

Lemma validateAll_run (w : World) :
  validateAll w
  = (w,
     validation_calls
       ++ (if sectionsValid (form w) then []
           else (λ m, ToastError (JString m)) <$> validation_errors (form w)),
     Normal (sectionsValid (form w))).
Proof.
  unfold validateAll, sectionsValid, validation_errors, validation_calls,
    call, bind, emit, read, ret. simpl.
  destruct (vendorBasics_validateAll _), (validateGeo _),
    (validateVolumetric _), (charges_validateAll _), (validateZoneRates _);
    reflexivity.
Qed.

(** A form that does not validate: the handler shows the messages and
    returns; nothing else happens. *)
Lemma handleSubmit_invalid net (w : World) :
  sectionsValid (form w) = false →
  handleSubmit net w
  = (w,
     validation_calls
       ++ ((λ m, ToastError (JString m)) <$> validation_errors (form w)),
     Return_).
Proof.
  intros Hinv. unfold handleSubmit, bind at 1.
  rewrite validateAll_run, Hinv. simpl. by rewrite app_nil_r.
Qed.

(** A form that validates: the flag is set and the [try] block runs. *)
Lemma handleSubmit_valid net (w : World) :
  sectionsValid (form w) = true →
  handleSubmit net w
  = let '(w', evs, c) :=
      try_catch_finally (submitBody net) unexpected (setIsSubmitting false)
                        (set_isSubmitting true w) in
    (w', validation_calls ++ SetIsSubmitting true :: evs, c).
Proof.
  intros Hval. unfold handleSubmit, bind at 1.
  rewrite validateAll_run, Hval. simpl.
  unfold bind at 1, setIsSubmitting at 1, write at 1.
  destruct (try_catch_finally _ _ _ _) as [[w' evs] c]. reflexivity.
Qed.

(** The events of a validated submission up to the [try] block. *)
Lemma handleSubmit_normalize_failed net (w : World) :
  sectionsValid (form w) = true →
  normalizeAndValidate (zoneRates (form w)) = None →
  handleSubmit net w
  = (set_isSubmitting false w,
     validation_calls
       ++ [SetIsSubmitting true; Called ZoneRates_normalizeAndValidate;
           ToastError (JString "Failed to normalize zone rates");
           SetIsSubmitting false; SetIsSubmitting false],
     Return_).
Proof.
  intros Hval Hnorm. rewrite handleSubmit_valid by done.
  unfold_steps. simpl. rewrite Hnorm. reflexivity.
Qed.

Lemma handleSubmit_token_throws net (w : World) n :
  sectionsValid (form w) = true →
  normalizeAndValidate (zoneRates (form w)) = Some n →
  getCustomerIDFromToken atob JSON_parse (storage w) = None →
  handleSubmit net w
  = (set_isSubmitting false w,
     validation_calls
       ++ [SetIsSubmitting true; Called ZoneRates_normalizeAndValidate;
           ToastError (JString "An unexpected error occurred. Please try again.");
           SetIsSubmitting false],
     Normal tt).
Proof.
  intros Hval Hnorm Htok. rewrite handleSubmit_valid by done.
  unfold_steps. simpl. rewrite Hnorm. simpl. rewrite Htok. reflexivity.
Qed.

Lemma handleSubmit_no_id net (w : World) n id :
  sectionsValid (form w) = true →
  normalizeAndValidate (zoneRates (form w)) = Some n →
  getCustomerIDFromToken atob JSON_parse (storage w) = Some id →
  truthy (Some id) = false →
  handleSubmit net w
  = (set_isSubmitting false w,
     validation_calls
       ++ [SetIsSubmitting true; Called ZoneRates_normalizeAndValidate;
           ToastError (JString "No customerID found in token");
           SetIsSubmitting false; SetIsSubmitting false],
     Return_).
Proof.
  intros Hval Hnorm Htok Hid. rewrite handleSubmit_valid by done.
  unfold_steps. simpl. rewrite Hnorm. simpl. rewrite Htok. simpl.
  rewrite Hid. reflexivity.
Qed.

Lemma ready_inv (w : World) :
  ready w →
  sectionsValid (form w) = true
  ∧ (∃ n, normalizeAndValidate (zoneRates (form w)) = Some n)
  ∧ ∃ id, getCustomerIDFromToken atob JSON_parse (storage w) = Some id
          ∧ truthy (Some id) = true ∧ customerID w = Some id.
Proof.
  intros (Hval & [n Hn] & [id Hid]). split; [done |]. split; [eauto |].
  unfold customerID in *.
  destruct (getCustomerIDFromToken _ _ _) as [id'|]; [| done]. simpl in *.
  destruct (truthy (Some id')) eqn:Ht; [| done].
  exists id'. by injection Hid as <-.
Qed.

(** A ready form: the request goes out and the handler waits. *)
Lemma handleSubmit_sent (w : World) id :
  ready w → customerID w = Some id →
  handleSubmit None w
  = (set_isSubmitting true w,
     validation_calls
       ++ [SetIsSubmitting true; Called ZoneRates_normalizeAndValidate;
           Fetch (getAuthToken (storage w)) (request_of id w)],
     Await).
Proof.
  intros Hready Hcid.
  destruct (ready_inv w Hready) as (Hval & [n Hnorm] & id' & Htok & Hid & Hcid').
  assert (id' = id) as -> by congruence.
  rewrite handleSubmit_valid by done.
  unfold_steps. simpl. rewrite Hnorm. simpl. rewrite Htok. simpl.
  rewrite Hid. reflexivity.
Qed.

(** With the answer at hand, the handler is the run up to the request
    followed by the run from the answer on. *)
Lemma handleSubmit_answered (w : World) id r :
  ready w → customerID w = Some id →
  handleSubmit (Some r) w
  = let '(w', evs, c) := handleSubmit_resume r (set_isSubmitting true w) in
    (w',
     validation_calls
       ++ [SetIsSubmitting true; Called ZoneRates_normalizeAndValidate;
           Fetch (getAuthToken (storage w)) (request_of id w)] ++ evs,
     c).
Proof.
  intros Hready Hcid.
  destruct (ready_inv w Hready) as (Hval & [n Hnorm] & id' & Htok & Hid & Hcid').
  assert (id' = id) as -> by congruence.
  rewrite handleSubmit_valid by done.
  unfold_steps. simpl. rewrite Hnorm. simpl. rewrite Htok. simpl.
  rewrite Hid. simpl.
  destruct r as [|ok status body]; [reflexivity |]. simpl.
  destruct (negb ok || _); reflexivity.
Qed.

Lemma resume_network_error (w : World) :
  handleSubmit_resume NetworkError w
  = (set_isSubmitting false w,
     [ToastError (JString "An unexpected error occurred. Please try again.");
      SetIsSubmitting false],
     Normal tt).
Proof. reflexivity. Qed.

Lemma resume_refused (w : World) ok status body :
  succeeded (Response ok status body) = false →
  handleSubmit_resume (Response ok status body) w
  = (set_isSubmitting false w,
     [ToastError (failure_message (Some (default (JObject []) body)) status);
      SetIsSubmitting false; SetIsSubmitting false],
     Return_).
Proof.
  unfold succeeded. intros Hfail. unfold_steps.
  rewrite <- negb_andb, Hfail. reflexivity.
Qed.

Lemma resume_succeeded (w : World) r :
  succeeded r = true →
  handleSubmit_resume r w
  = (set_isSubmitting false (cleared w),
     [ToastSuccess "Vendor created successfully!"; ClearDraft;
      Reset VendorBasics; Reset PincodeLookup; Reset Volumetric;
      Reset Charges; Reset ZoneRates; SetPriceChartFile_null;
      SetRefreshTrigger; SetIsSubmitting false],
     Normal tt).
Proof.
  destruct r as [|ok status body]; [discriminate |].
  unfold succeeded. intros Hok. unfold_steps.
  rewrite <- negb_andb, Hok. reflexivity.
Qed.

Lemma ready_intro (w : World) n id :
  sectionsValid (form w) = true →
  normalizeAndValidate (zoneRates (form w)) = Some n →
  getCustomerIDFromToken atob JSON_parse (storage w) = Some id →
  truthy (Some id) = true →
  ready w ∧ customerID w = Some id.
Proof.
  intros Hval Hnorm Htok Hid.
  assert (Hcid : customerID w = Some id).
  { unfold customerID. rewrite Htok. simpl. by rewrite Hid. }
  split; [| done]. split_and!; [done | eauto | eauto].
Qed.

(** Splits a run of [handleSubmit net w], written as [run] in the goal
    after [Hrun : handleSubmit net w = run], into the ways it can go. *)
Ltac handler_cases net w Hrun :=
  let Hval := fresh "Hval" in
  let Hnorm := fresh "Hnorm" in
  let Htok := fresh "Htok" in
  let Hid := fresh "Hid" in
  let n := fresh "n" in
  let id := fresh "id" in
  destruct (sectionsValid (form w)) eqn:Hval;
  [ destruct (normalizeAndValidate (zoneRates (form w))) as [n|] eqn:Hnorm;
    [ destruct (getCustomerIDFromToken atob JSON_parse (storage w))
        as [id|] eqn:Htok;
      [ destruct (truthy (Some id)) eqn:Hid;
        [ destruct (ready_intro w n id Hval Hnorm Htok Hid) as [? ?];
          destruct net as [[|? ? ?]|];
          [ rewrite (handleSubmit_answered w id) in Hrun by done;
            rewrite resume_network_error in Hrun
          | rewrite (handleSubmit_answered w id) in Hrun by done;
            match type of Hrun with
            | context [handleSubmit_resume ?r _] =>
                destruct (succeeded r) eqn:?;
                [ rewrite resume_succeeded in Hrun by done
                | rewrite resume_refused in Hrun by done ]
            end
          | rewrite (handleSubmit_sent w id) in Hrun by done ]
        | rewrite (handleSubmit_no_id net w n id) in Hrun by done ]
      | rewrite (handleSubmit_token_throws net w n) in Hrun by done ]
    | rewrite (handleSubmit_normalize_failed net w) in Hrun by done ]
  | rewrite (handleSubmit_invalid net w) in Hrun by done ];
  injection Hrun as <- <- <-.

Lemma sent_toasts (msgs : list string) :
  sent ((λ m, ToastError (JString m)) <$> msgs) = [].
Proof. induction msgs; [done | done]. Qed.

Lemma error_toasts_toasts (msgs : list string) :
  error_toasts ((λ m, ToastError (JString m)) <$> msgs) = JString <$> msgs.
Proof.
  induction msgs as [|m msgs IH]; [done |].
  rewrite !fmap_cons, <- IH. reflexivity.
Qed.

Lemma flags_at_fetch_toasts b (msgs : list string) :
  flags_at_fetch b ((λ m, ToastError (JString m)) <$> msgs) = [].
Proof. induction msgs; [done | done]. Qed.

Lemma flags_at_fetch_calls b evs :
  flags_at_fetch b (validation_calls ++ evs) = flags_at_fetch b evs.
Proof. reflexivity. Qed.

Lemma sent_calls evs : sent (validation_calls ++ evs) = sent evs.
Proof. reflexivity. Qed.

Lemma error_toasts_calls evs :
  error_toasts (validation_calls ++ evs) = error_toasts evs.
Proof. reflexivity. Qed.

Lemma not_in_toasts (h : HookCall) (msgs : list string) :
  Called h ∉ (λ m, ToastError (JString m)) <$> msgs.
Proof. by intros (m & ? & _)%list_elem_of_fmap. Qed.

Lemma not_normalized_invalid (msgs : list string) :
  Called ZoneRates_normalizeAndValidate
    ∉ validation_calls ++ ((λ m, ToastError (JString m)) <$> msgs).
Proof.
  intros [Hin|Hin]%elem_of_app.
  - unfold validation_calls in Hin.
    repeat (apply elem_of_cons in Hin as [Hin|Hin]; [discriminate |]).
    by apply elem_of_nil in Hin.
  - by apply not_in_toasts in Hin.
Qed.

(** The [try] block begins with the call to [normalizeAndValidate]. *)
Lemma handleSubmit_valid_events net (w w' : World) evs c :
  sectionsValid (form w) = true →
  handleSubmit net w = (w', evs, c) →
  ∃ post, evs = validation_calls
                  ++ SetIsSubmitting true
                  :: Called ZoneRates_normalizeAndValidate :: post.
Proof.
  intros Hv Hrun. handler_cases net w Hrun; try discriminate; eauto.
Qed.

(** C6. Normalization is called only in a run whose validation passed:
    when a section does not validate, on the values as entered, the
    handler returns with the validation messages, without calling
    [normalizeAndValidate] and without touching any state; and in every
    run that calls it, the five validators ran before it and passed. *)
Theorem normalization_only_after_validation net (w w' : World) evs c :
  handleSubmit net w = (w', evs, c) →
  (sectionsValid (form w) = false →
     (Called ZoneRates_normalizeAndValidate ∉ evs)
     ∧ c = Return_ ∧ w' = w
     ∧ error_toasts evs = JString <$> validation_errors (form w))
  ∧ (Called ZoneRates_normalizeAndValidate ∈ evs →
     sectionsValid (form w) = true
     ∧ ∃ post, evs = validation_calls
                       ++ SetIsSubmitting true
                       :: Called ZoneRates_normalizeAndValidate :: post).
Proof.
  intros Hrun. split.
  - intros Hinv. rewrite handleSubmit_invalid in Hrun by done.
    injection Hrun as <- <- <-. split_and!; try done.
    + apply not_normalized_invalid.
    + apply error_toasts_toasts.
  - intros Hin. destruct (sectionsValid (form w)) eqn:Hval.
    + split; [done |]. by eapply handleSubmit_valid_events.
    + rewrite handleSubmit_invalid in Hrun by done.
      injection Hrun as <- <- <-.
      by apply not_normalized_invalid in Hin.
Qed.

(** The flag is up at every request of a run. *)
Lemma flag_set_at_fetch net (w w' : World) evs c :
  handleSubmit net w = (w', evs, c) →
  Forall (λ b, b = true) (flags_at_fetch (isSubmitting w) evs).
Proof.
  intros Hrun. handler_cases net w Hrun;
    rewrite ?flags_at_fetch_calls; simpl;
    rewrite ?flags_at_fetch_toasts; repeat constructor.
Qed.

(** A click sends at most one request, and leaves the flag up when it
    sent one. *)
Lemma submit_sends_once (w w' : World) evs c :
  handleSubmit None w = (w', evs, c) →
  length (sent evs) ≤ 1 ∧ (sent evs ≠ [] → isSubmitting w' = true).
Proof.
  assert (Hgen : ∀ net, net = None → handleSubmit net w = (w', evs, c) →
            length (sent evs) ≤ 1 ∧ (sent evs ≠ [] → isSubmitting w' = true)).
  { intros net Hnet Hrun. handler_cases net w Hrun; try discriminate Hnet;
      rewrite ?sent_calls; simpl; rewrite ?sent_toasts; simpl;
      (split; [lia | intros Hne; first [reflexivity | by destruct Hne]]). }
  by apply Hgen.
Qed.

(** When the answer has been handled the flag is down. *)
Lemma resume_resets_flag r (w : World) :
  isSubmitting (handleSubmit_resume r w).1.1 = false.
Proof.
  destruct (succeeded r) eqn:Hs.
  - by rewrite resume_succeeded.
  - destruct r as [|ok status body]; [by rewrite resume_network_error |].
    by rewrite resume_refused.
Qed.

(** What holds between any two events of the page. *)
Lemma session_invariant (s : Session) :
  reachable s →
  length (inflight s) ≤ 1
  ∧ (inflight s ≠ [] → isSubmitting (world s) = true).
Proof.
  induction 1 as [s Hflag Hnone | s a s' Hreach [IHlen IHflag] Hstep].
  - rewrite Hnone. simpl. split; [lia | done].
  - destruct Hstep as [s Hidle | s r pre fd post Hin | s w Hsame].
    + assert (Hnone : inflight s = []).
      { destruct (inflight s); [done |]. by rewrite IHflag in Hidle. }
      unfold after_submit. rewrite Hnone.
      destruct (handleSubmit None (world s)) as [[w' evs] c] eqn:Hrun.
      simpl. by eapply submit_sends_once.
    + rewrite Hin, length_app in IHlen. simpl in IHlen.
      assert (pre = [] ∧ post = []) as [-> ->].
      { destruct pre, post; simpl in IHlen; (done || lia). }
      simpl. split; [lia | done].
    + simpl. rewrite Hsame. done.
Qed.

(** C7. The flag is up whenever [handleSubmit] sends its request, and
    on a page whose submit button is disabled while the flag is up
    there is never more than one request in flight: while one is, the
    flag is up and no submission can start. *)
Theorem one_submission_in_flight :
  (∀ net (w w' : World) evs c,
     handleSubmit net w = (w', evs, c) →
     Forall (λ b, b = true) (flags_at_fetch (isSubmitting w) evs))
  ∧ (∀ s : Session, reachable s →
       length (inflight s) ≤ 1
       ∧ (inflight s ≠ [] →
          isSubmitting (world s) = true ∧ ∀ s', ¬ step s Submit s')).
Proof.
  split; [apply flag_set_at_fetch |].
  intros s Hreach. destruct (session_invariant s Hreach) as [Hlen Hflag].
  split; [done |]. intros Hbusy. split; [by apply Hflag |].
  intros s' Hstep. inversion Hstep as [s0 Hidle | |]; subst.
  by rewrite Hflag in Hidle.
Qed.

(** C8, amended. Once the request is sent: an answer that counts as a
    success leaves the draft store cleared, the five sections held by
    the hooks reset and no file chosen, while the transport mode stays
    as it was selected; a network failure or an answer that is not a
    success leaves the page as it was but for the flag, which is down,
    with the one request sent and one error message shown. *)
Theorem submission_outcome r (w w' : World) evs c :
  ready w →
  handleSubmit (Some r) w = (w', evs, c) →
  (succeeded r = true →
     w' = set_isSubmitting false (cleared w)
     ∧ draft w' = None ∧ form w' = form0 ∧ priceChartFile w' = None
     ∧ transportMode w' = transportMode w
     ∧ isSubmitting w' = false)
  ∧ (succeeded r = false →
     w' = set_isSubmitting false w
     ∧ draft w' = draft w ∧ form w' = form w
     ∧ priceChartFile w' = priceChartFile w
     ∧ transportMode w' = transportMode w
     ∧ isSubmitting w' = false
     ∧ length (sent evs) = 1 ∧ length (error_toasts evs) = 1).
Proof.
  intros Hready Hrun.
  destruct (ready_inv w Hready) as (_ & _ & id & _ & _ & Hcid).
  rewrite (handleSubmit_answered w id) in Hrun by done.
  destruct (succeeded r) eqn:Hs.
  - rewrite resume_succeeded in Hrun by done.
    injection Hrun as <- <- <-. split; [| done]. intros _. by split_and!.
  - split; [done |]. intros _.
    destruct r as [|ok status body].
    + rewrite resume_network_error in Hrun.
      injection Hrun as <- <- <-. by split_and!.
    + rewrite resume_refused in Hrun by done.
      injection Hrun as <- <- <-. by split_and!.
Qed.

(** The request carries the chosen file, or else the placeholder. *)
Lemma request_file net (w w' : World) evs c :
  handleSubmit net w = (w', evs, c) →
  Forall (λ fd, fd_priceChart fd = fileToSend w) (sent evs).
Proof.
  intros Hrun. handler_cases net w Hrun;
    rewrite ?sent_calls; simpl; rewrite ?sent_toasts; repeat constructor.
Qed.

(** C9. With a token that yields no account identifier (none stored,
    not made of two segments, a payload that does not decode, or no
    truthy value at any of the places looked at) no request is sent,
    the flag is down afterwards, and a form that validates and
    normalizes gets exactly one error message. Every request that is
    sent carries a file: the chosen price chart, or else a
    placeholder. *)
Theorem no_identifier_no_request net (w w' : World) evs c :
  handleSubmit net w = (w', evs, c) →
  (customerID w = None →
     sent evs = []
     ∧ (isSubmitting w = false → isSubmitting w' = false)
     ∧ (sectionsValid (form w) = true →
        is_Some (normalizeAndValidate (zoneRates (form w))) →
        isSubmitting w' = false ∧ length (error_toasts evs) = 1))
  ∧ (getAuthToken (storage w) = ""
     ∨ length (split_dot (getAuthToken (storage w))) < 2
     ∨ base64UrlToJson atob JSON_parse
         (default "" (split_dot (getAuthToken (storage w)) !! 1)) = None
     ∨ Forall (λ v, truthy v = false)
         (claims (payloadOf atob JSON_parse (getAuthToken (storage w)))) →
     customerID w = None)
  ∧ Forall (λ fd, fd_priceChart fd
                  = match priceChartFile w with
                    | Some f => Uploaded f
                    | None => Placeholder now (companyName (basics (form w)))
                    end) (sent evs).
Proof.
  intros Hrun. split_and!.
  - intros Hnone.
    handler_cases net w Hrun; try congruence;
      rewrite ?sent_calls, ?error_toasts_calls; simpl;
      rewrite ?sent_toasts; (split_and!; [done | done |]);
      try (intros _ _; by split); try (by intros _ [? ?]); try done.
  - intros Hbad. unfold customerID.
    assert (Hres : getCustomerIDFromToken atob JSON_parse (storage w)
                   = Some (JString "")
                   ∨ getCustomerIDFromToken atob JSON_parse (storage w) = None).
    { destruct Hbad as [Habs|[Hseg|[Hdec|Hclaims]]].
      - left. by apply TokenFacts.getCustomerIDFromToken_absent.
      - left. by apply TokenFacts.getCustomerIDFromToken_one_segment.
      - apply TokenFacts.getCustomerIDFromToken_no_claim.
        rewrite TokenFacts.payloadOf_undecodable by done.
        apply TokenFacts.claims_empty_object.
      - by apply TokenFacts.getCustomerIDFromToken_no_claim. }
    destruct Hres as [-> | ->]; reflexivity.
  - by eapply request_file.
Qed.

(** *** Further properties of the submit handler *)

Lemma not_ready_invalid (w : World) :
  sectionsValid (form w) = false → ¬ ready w.
Proof. intros Hv [Hv' _]. congruence. Qed.

Lemma not_ready_unnormalized (w : World) :
  normalizeAndValidate (zoneRates (form w)) = None → ¬ ready w.
Proof. intros Hn (_ & [n Hn'] & _). congruence. Qed.

Lemma not_ready_no_id (w : World) :
  customerID w = None → ¬ ready w.
Proof. intros Hc (_ & _ & [id Hid]). congruence. Qed.

Lemma customerID_throws (w : World) :
  getCustomerIDFromToken atob JSON_parse (storage w) = None →
  customerID w = None.
Proof. unfold customerID. by intros ->. Qed.

Lemma customerID_falsy (w : World) id :
  getCustomerIDFromToken atob JSON_parse (storage w) = Some id →
  truthy (Some id) = false → customerID w = None.
Proof. unfold customerID. intros -> Hid. simpl. by rewrite Hid. Qed.

Lemma sent_invalid (msgs : list string) :
  sent (validation_calls ++ ((λ m, ToastError (JString m)) <$> msgs)) = [].
Proof. rewrite sent_calls. apply sent_toasts. Qed.

Lemma fetch_not_invalid (msgs : list string) t fd :
  Fetch t fd ∉ validation_calls ++ ((λ m, ToastError (JString m)) <$> msgs).
Proof.
  intros [Hin|Hin]%elem_of_app.
  - unfold validation_calls in Hin.
    repeat (apply elem_of_cons in Hin as [Hin|Hin]; [discriminate |]).
    by apply elem_of_nil in Hin.
  - by apply list_elem_of_fmap in Hin as (? & ? & _).
Qed.

(** Refutes [ready w] from the equation that names what is missing. *)
Ltac not_ready w :=
  let Hr := fresh "Hr" in
  intros Hr; exfalso; revert Hr;
  match goal with
  | Hn : normalizeAndValidate _ = None |- _ =>
      apply (not_ready_unnormalized w Hn)
  | Ht : getCustomerIDFromToken _ _ _ = None |- _ =>
      apply (not_ready_no_id w (customerID_throws w Ht))
  | Ht : getCustomerIDFromToken _ _ _ = Some ?i,
    Hi : truthy (Some ?i) = false |- _ =>
      apply (not_ready_no_id w (customerID_falsy w i Ht Hi))
  end.

(** A request goes out exactly when the form validates, normalizes and
    the token yields an identifier. Then it is one request, sent with
    the stored token: it carries that identifier, the trimmed company
    name, the price rate "0" and the form as it stands, zone rates as
    entered. *)
Theorem request_goes_out_iff_ready net (w w' : World) evs c :
  handleSubmit net w = (w', evs, c) →
  (sent evs ≠ [] ↔ ready w)
  ∧ (∀ fd, fd ∈ sent evs →
       sent evs = [fd]
       ∧ customerID w = Some (fd_customerID fd)
       ∧ fd_companyName fd = trim (companyName (basics (form w)))
       ∧ fd_priceRate fd = "0"
       ∧ fd_vendorJson fd = mkVendor (form w) (transportMode w))
  ∧ (∀ token fd, Fetch token fd ∈ evs → token = getAuthToken (storage w)).
Proof.
  intros Hrun.
  destruct (sectionsValid (form w)) eqn:Hv.
  2:{ rewrite handleSubmit_invalid in Hrun by done.
      assert (Hevs : evs = validation_calls
                ++ ((λ m, ToastError (JString m)) <$> validation_errors (form w)))
        by congruence.
      rewrite Hevs, sent_invalid. split_and!.
      - split; [done |]. intros Hr. by apply not_ready_invalid in Hr.
      - by intros fd ?%elem_of_nil.
      - intros t fd Hin. by apply fetch_not_invalid in Hin. }
  handler_cases net w Hrun; try discriminate Hv; simpl;
    (split_and!;
     [ split; [first [done | intros Hne; by destruct Hne]
              | first [discriminate | not_ready w]]
     | first [ intros fd ->%list_elem_of_singleton; by split_and!
             | by intros fd ?%elem_of_nil ]
     | intros t fd Hin;
       repeat (apply elem_of_cons in Hin as [Hin|Hin];
               [first [discriminate | by injection Hin as -> _] |]);
       by apply elem_of_nil in Hin ]).
Qed.

(** Every run begins with the five validators, in the order of the
    page, none skipped after a failure. A run on a form with failing
    sections shows one message for each of them, between one and five,
    and validation passes exactly when no section fails. *)
Theorem validation_reports_each_section net (w w' : World) evs c :
  handleSubmit net w = (w', evs, c) →
  (∃ rest, evs = validation_calls ++ rest)
  ∧ (sectionsValid (form w) = true ↔ ResetForm.failing_sections (form w) = 0)
  ∧ (sectionsValid (form w) = false →
     error_toasts evs = JString <$> validation_errors (form w)
     ∧ length (error_toasts evs) = ResetForm.failing_sections (form w)
     ∧ 1 ≤ ResetForm.failing_sections (form w) ≤ 5).
Proof.
  intros Hrun. split_and!.
  - destruct (sectionsValid (form w)) eqn:Hv.
    + destruct (handleSubmit_valid_events net w w' evs c Hv Hrun) as [post ->].
      eauto.
    + rewrite handleSubmit_invalid in Hrun by done.
      injection Hrun as <- <- <-. eauto.
  - unfold sectionsValid, ResetForm.failing_sections.
    destruct (vendorBasics_validateAll _), (validateGeo _),
      (validateVolumetric _), (charges_validateAll _), (validateZoneRates _);
      split; (done || discriminate).
  - intros Hv. rewrite handleSubmit_invalid in Hrun by done.
    assert (Hevs : evs = validation_calls
              ++ ((λ m, ToastError (JString m)) <$> validation_errors (form w)))
      by congruence.
    rewrite Hevs, error_toasts_calls, error_toasts_toasts, length_fmap.
    split; [done |]. revert Hv.
    unfold sectionsValid, validation_errors, ResetForm.failing_sections.
    destruct (vendorBasics_validateAll _), (validateGeo _),
      (validateVolumetric _), (charges_validateAll _), (validateZoneRates _);
      intros Hv; try discriminate Hv; simpl; (split; [reflexivity | lia]).
Qed.

(** A run started with the flag down ends with the flag up exactly
    when it ends suspended at the request, and that happens exactly when
    the form is ready and the answer is still to come: after every
    other end of the handler the button is enabled again. *)
Theorem flag_is_up_only_while_waiting net (w w' : World) evs c :
  handleSubmit net w = (w', evs, c) →
  isSubmitting w = false →
  (isSubmitting w' = true ↔ c = Await)
  ∧ (c = Await ↔ net = None ∧ ready w).
Proof.
  intros Hrun Hflag.
  destruct (sectionsValid (form w)) eqn:Hv.
  2:{ rewrite handleSubmit_invalid in Hrun by done.
      injection Hrun as <- <- <-. rewrite Hflag. split; [done |].
      split; [done |]. intros [_ Hr]. by apply not_ready_invalid in Hr. }
  handler_cases net w Hrun; try discriminate Hv; simpl;
    (split; [done |]); split; try done;
    first [ by intros [? _] | intros [_ Hr]; revert Hr; not_ready w ].
Qed.

(** A run that has its answer is the run up to the request followed,
    when that one was suspended, by the handling of the answer. *)
Theorem submit_then_answer r (w : World) :
  handleSubmit (Some r) w
  = match handleSubmit None w with
    | (w1, evs1, Await) =>
        let '(w2, evs2, c2) := handleSubmit_resume r w1 in
        (w2, evs1 ++ evs2, c2)
    | run => run
    end.
Proof.
  destruct (sectionsValid (form w)) eqn:Hval;
    [| by rewrite !handleSubmit_invalid by done].
  destruct (normalizeAndValidate (zoneRates (form w))) as [n|] eqn:Hnorm;
    [| by rewrite !handleSubmit_normalize_failed by done].
  destruct (getCustomerIDFromToken atob JSON_parse (storage w))
    as [id|] eqn:Htok;
    [| by rewrite !(handleSubmit_token_throws _ w n) by done].
  destruct (truthy (Some id)) eqn:Hid;
    [| by rewrite !(handleSubmit_no_id _ w n id) by done].
  destruct (ready_intro w n id Hval Hnorm Htok Hid) as [Hready Hcid].
  rewrite (handleSubmit_sent w id), (handleSubmit_answered w id) by done.
  destruct (handleSubmit_resume r _) as [[w2 evs2] c2].
  by rewrite <- app_assoc.
Qed.

Lemma submit_flag (w w' : World) evs c :
  handleSubmit None w = (w', evs, c) →
  isSubmitting w = false →
  (isSubmitting w' = true ↔ sent evs ≠ []).
Proof.
  intros Hrun Hflag.
  assert (Hgen : ∀ net, net = None → handleSubmit net w = (w', evs, c) →
            (isSubmitting w' = true ↔ sent evs ≠ [])).
  { intros net Hnet Hrun'.
    destruct (sectionsValid (form w)) eqn:Hv.
    2:{ rewrite handleSubmit_invalid in Hrun' by done.
        assert (Hevs : evs = validation_calls
                  ++ ((λ m, ToastError (JString m))
                        <$> validation_errors (form w))) by congruence.
        assert (w' = w) as -> by congruence.
        rewrite Hevs, sent_invalid, Hflag. split; done. }
    handler_cases net w Hrun'; try discriminate Hv; try discriminate Hnet;
      simpl; split; try done; intros Hne; by destruct Hne. }
  by apply (Hgen None).
Qed.

(** Between any two events of the page the flag is up exactly while a
    request is in flight. So with nothing in flight a submission can
    start, and once the answer to the request in flight has been
    handled, whatever it is, nothing is in flight and the button is
    enabled again. *)
Theorem flag_iff_in_flight (s : Session) :
  reachable s →
  (isSubmitting (world s) = true ↔ inflight s ≠ [])
  ∧ (inflight s = [] → step s Submit (after_submit s))
  ∧ (∀ r fd, inflight s = [fd] →
       step s (Answer r) (after_answer r [] s)
       ∧ inflight (after_answer r [] s) = []
       ∧ isSubmitting (world (after_answer r [] s)) = false).
Proof.
  intros Hreach.
  assert (Hinv : isSubmitting (world s) = true ↔ inflight s ≠ []).
  { induction Hreach as [s Hflag Hnone | s a s' Hreach IH Hstep].
    - rewrite Hflag, Hnone. split; done.
    - destruct Hstep as [s Hidle | s r pre fd post Hin | s w Hsame].
      + assert (Hnone : inflight s = []).
        { destruct (inflight s) eqn:Hi; [done |].
          assert (isSubmitting (world s) = true) by (by apply IH).
          congruence. }
        unfold after_submit. rewrite Hnone.
        destruct (handleSubmit None (world s)) as [[w' evs] c] eqn:Hrun.
        simpl. by eapply submit_flag.
      + destruct (session_invariant s Hreach) as [Hlen _].
        rewrite Hin, length_app in Hlen. simpl in Hlen.
        assert (pre = [] ∧ post = []) as [-> ->].
        { destruct pre, post; simpl in Hlen; (done || lia). }
        simpl. rewrite resume_resets_flag. split; done.
      + simpl. by rewrite Hsame. }
  split; [exact Hinv |]. split.
  - intros Hnone. apply step_submit.
    destruct (isSubmitting (world s)) eqn:Hflag; [| done].
    by apply Hinv in Hnone.
  - intros r fd Hfd. split_and!.
    + by apply (step_answer s r [] fd []).
    + done.
    + apply resume_resets_flag.
Qed.

(** A token whose payload has a null [customer] stops a form that
    validates and normalizes: the handler sends nothing, shows the
    message for unexpected errors and no other, and leaves the page as
    it was with the flag down, also when another place of the payload
    holds an identifier. *)
Theorem null_customer_is_an_unexpected_error net (w : World) :
  sectionsValid (form w) = true →
  is_Some (normalizeAndValidate (zoneRates (form w))) →
  getAuthToken (storage w) ≠ "" →
  2 ≤ length (split_dot (getAuthToken (storage w))) →
  prop (payloadOf atob JSON_parse (getAuthToken (storage w))) "customer"
  = Some JNull →
  handleSubmit net w
  = (set_isSubmitting false w,
     validation_calls
       ++ [SetIsSubmitting true; Called ZoneRates_normalizeAndValidate;
           ToastError (JString "An unexpected error occurred. Please try again.");
           SetIsSubmitting false],
     Normal tt).
Proof.
  intros Hval [n Hnorm] Htok Hlen Hnull.
  apply (handleSubmit_token_throws net w n); [done | done |].
  by apply TokenFacts.getCustomerIDFromToken_null_customer.
Qed.

(** "Reset Form": declined, nothing happens. Confirmed, every section
    is reset, the file and the draft are dropped and one success
    message is shown, while the flag, the transport mode and the
    stored token stay as they are; doing it twice changes nothing more.
    A successful submission leaves the sections, the file and the draft
    as "Reset Form" does, and a page reached with "Reset Form" is one
    the invariants above hold for. *)
Theorem reset_form_effect (w : World) :
  ResetForm.handleReset false w = (w, [], Return_)
  ∧ ResetForm.handleReset true w
    = (mkWorld form0 (transportMode w) None (isSubmitting w)
               (refreshTrigger w) None (storage w),
       [Reset VendorBasics; Reset PincodeLookup; Reset Volumetric;
        Reset Charges; Reset ZoneRates; SetPriceChartFile_null; ClearDraft;
        ToastSuccess "Form reset"],
       Normal tt)
  ∧ (ResetForm.handleReset true (ResetForm.handleReset true w).1.1).1.1
    = (ResetForm.handleReset true w).1.1
  ∧ (∀ r, succeeded r = true →
       (handleSubmit_resume r w).1.1
       = set_isSubmitting false
           (set_refreshTrigger (refreshTrigger w + 1)
              (ResetForm.handleReset true w).1.1))
  ∧ (∀ s, world s = w → reachable s →
       reachable (mkSession (ResetForm.handleReset true w).1.1 (inflight s))).
Proof.
  split_and!; try reflexivity.
  - intros r Hr. by rewrite resume_succeeded.
  - intros s <- Hreach.
    apply (reachable_step s Edit); [done |]. by apply step_edit.
Qed.

End Runs.

(** An empty form: five messages, no normalization. *)
Lemma normalization_only_after_validation_witness :
  Called ZoneRates_normalizeAndValidate
    ∉ (handleSubmit (H := Sample.hooks) (H0 := Sample.platform)
         None (Sample.blank Sample.good_token)).1.2.
Proof.
  destruct (handleSubmit (H := Sample.hooks) (H0 := Sample.platform)
              None (Sample.blank Sample.good_token)) as [[w' evs] c] eqn:Hrun.
  apply (normalization_only_after_validation _ _ _ _ _ Hrun).
  reflexivity.
Defined.

Lemma sample_ready :
  ready (H := Sample.hooks) (H0 := Sample.platform)
        (Sample.filled Sample.good_token).
Proof. split_and!; [reflexivity | by eexists | by eexists]. Defined.

(** After one click on a filled-in form one request is in flight and
    the button is disabled. *)
Lemma one_submission_in_flight_witness :
  let s := after_submit (H := Sample.hooks) (H0 := Sample.platform)
                        Sample.mounted in
  reachable (H0 := Sample.platform) s
  ∧ length (inflight s) ≤ 1
  ∧ isSubmitting (world s) = true.
Proof.
  intros s.
  assert (Hreach : reachable (H0 := Sample.platform) s).
  { apply (reachable_step (H0 := Sample.platform) Sample.mounted Submit).
    - by apply reachable_fresh.
    - by apply step_submit. }
  split; [exact Hreach |].
  destruct (proj2 (one_submission_in_flight (H := Sample.hooks)
                     (H0 := Sample.platform)) s Hreach) as [Hlen Hbusy].
  split; [exact Hlen |]. apply Hbusy. discriminate.
Defined.

Lemma by_air_ready :
  ready (H := Sample.hooks) (H0 := Sample.platform) Examples.by_air.
Proof. split_and!; [reflexivity | by eexists | by eexists]. Defined.

(** C8 as the specification words it does not hold: the filled-in
    form of a vendor that ships by air, answered with "created", still
    shows the transport mode "air" afterwards, so not all that the
    page holds of the vendor is cleared. *)
Lemma success_keeps_transport_mode :
  ¬ (ready (H := Sample.hooks) (H0 := Sample.platform) Examples.by_air →
     succeeded Sample.created = true →
     spec_all_cleared
       (handleSubmit (H := Sample.hooks) (H0 := Sample.platform)
          (Some Sample.created) Examples.by_air).1.1).
Proof.
  intros Hclaim.
  destruct (Hclaim by_air_ready eq_refl) as (_ & _ & Hmode & _).
  vm_compute in Hmode. discriminate Hmode.
Qed.

(** The sample form, answered with "created" and with a refusal; and
    the form of the vendor that ships by air, answered with
    "created". *)
Lemma submission_outcome_witness :
  draft (handleSubmit (H := Sample.hooks) (H0 := Sample.platform)
           (Some Sample.created) (Sample.filled Sample.good_token)).1.1 = None
  ∧ draft (handleSubmit (H := Sample.hooks) (H0 := Sample.platform)
             (Some Sample.refused) (Sample.filled Sample.good_token)).1.1
    = Some "draft"
  ∧ transportMode (handleSubmit (H := Sample.hooks) (H0 := Sample.platform)
                     (Some Sample.created) Examples.by_air).1.1 = air.
Proof.
  split; [| split].
  3: {
    destruct (handleSubmit (H := Sample.hooks) (H0 := Sample.platform)
                (Some Sample.created) Examples.by_air)
      as [[w' evs] c] eqn:Hrun.
    destruct (proj1 (submission_outcome _ _ _ _ _ by_air_ready Hrun) eq_refl)
      as (_ & _ & _ & _ & Hmode & _).
    exact Hmode. }
  - destruct (handleSubmit (H := Sample.hooks) (H0 := Sample.platform)
                (Some Sample.created) (Sample.filled Sample.good_token))
      as [[w' evs] c] eqn:Hrun.
    apply (submission_outcome _ _ _ _ _ sample_ready Hrun). reflexivity.
  - destruct (handleSubmit (H := Sample.hooks) (H0 := Sample.platform)
                (Some Sample.refused) (Sample.filled Sample.good_token))
      as [[w' evs] c] eqn:Hrun.
    destruct (proj2 (submission_outcome _ _ _ _ _ sample_ready Hrun) eq_refl)
      as (_ & Hdraft & _).
    exact Hdraft.
Defined.

(** A token without a dot: nothing is sent; and a chosen price chart
    is the file of the request. *)
Lemma no_identifier_no_request_witness :
  sent (handleSubmit (H := Sample.hooks) (H0 := Sample.platform)
          (Some Sample.created) (Sample.filled "abc")).1.2 = []
  ∧ Forall (λ fd, fd_priceChart fd = Uploaded (H := Sample.hooks) "chart.pdf")
      (sent (handleSubmit (H := Sample.hooks) (H0 := Sample.platform)
               None (Sample.with_chart Sample.good_token)).1.2).
Proof.
  split.
  - destruct (handleSubmit (H := Sample.hooks) (H0 := Sample.platform)
                (Some Sample.created) (Sample.filled "abc"))
      as [[w' evs] c] eqn:Hrun.
    apply (no_identifier_no_request _ _ _ _ _ Hrun). reflexivity.
  - destruct (handleSubmit (H := Sample.hooks) (H0 := Sample.platform)
                None (Sample.with_chart Sample.good_token))
      as [[w' evs] c] eqn:Hrun.
    apply (no_identifier_no_request _ _ _ _ _ Hrun).
Defined.

(** The filled-in sample form: one request, with the identifier of the
    sample token. *)
Lemma request_goes_out_iff_ready_witness :
  Forall (λ fd, fd_customerID fd = JString "507f1f77bcf86cd799439011")
    (sent (handleSubmit (H := Sample.hooks) (H0 := Sample.platform)
             None (Sample.filled Sample.good_token)).1.2).
Proof.
  destruct (handleSubmit (H := Sample.hooks) (H0 := Sample.platform)
              None (Sample.filled Sample.good_token)) as [[w' evs] c] eqn:Hrun.
  destruct (request_goes_out_iff_ready _ _ _ _ _ Hrun) as (_ & Hfd & _).
  apply Forall_forall. intros fd Hin.
  destruct (Hfd fd Hin) as (_ & Hid & _).
  simpl. apply (inj Some). rewrite <- Hid. reflexivity.
Defined.

(** The page as mounted: all five sections fail, five messages. *)
Lemma validation_reports_each_section_witness :
  length (error_toasts
            (handleSubmit (H := Sample.hooks) (H0 := Sample.platform)
               None (Sample.blank Sample.good_token)).1.2) = 5.
Proof.
  destruct (handleSubmit (H := Sample.hooks) (H0 := Sample.platform)
              None (Sample.blank Sample.good_token)) as [[w' evs] c] eqn:Hrun.
  destruct (validation_reports_each_section _ _ _ _ _ Hrun) as (_ & _ & Hcount).
  destruct (Hcount eq_refl) as (_ & Hlen & _).
  simpl. rewrite Hlen. reflexivity.
Defined.

(** A refused submission of the sample form ends with the flag down. *)
Lemma flag_is_up_only_while_waiting_witness :
  isSubmitting (handleSubmit (H := Sample.hooks) (H0 := Sample.platform)
                  (Some Sample.refused)
                  (Sample.filled Sample.good_token)).1.1 = false.
Proof.
  destruct (handleSubmit (H := Sample.hooks) (H0 := Sample.platform)
              (Some Sample.refused) (Sample.filled Sample.good_token))
    as [[w' evs] c] eqn:Hrun.
  destruct (flag_is_up_only_while_waiting _ _ _ _ _ Hrun eq_refl)
    as [Hflag Hwait].
  simpl. destruct (isSubmitting w'); [| reflexivity].
  destruct (proj1 Hwait (proj1 Hflag eq_refl)) as [Hnet _]. discriminate Hnet.
Defined.

(** After one click on the sample form the flag is up, and the answer
    brings it down. *)
Lemma flag_iff_in_flight_witness :
  let s := after_submit (H := Sample.hooks) (H0 := Sample.platform)
                        Sample.mounted in
  isSubmitting (world s) = true
  ∧ isSubmitting (world (after_answer Sample.created [] s)) = false.
Proof.
  intros s.
  assert (Hreach : reachable (H0 := Sample.platform) s).
  { apply (reachable_step (H0 := Sample.platform) Sample.mounted Submit).
    - by apply reachable_fresh.
    - by apply step_submit. }
  destruct (flag_iff_in_flight (H := Sample.hooks) (H0 := Sample.platform)
              s Hreach) as (Hflag & _ & Hanswer).
  split.
  - apply Hflag. discriminate.
  - destruct (inflight s) as [|fd [|? ?]] eqn:Hin; try discriminate Hin.
    by destruct (Hanswer Sample.created fd eq_refl) as (_ & _ & ?).
Defined.

(** The sample form with a token whose payload has a null customer and
    an [id]. *)
Lemma null_customer_is_an_unexpected_error_witness :
  sent (handleSubmit (H := Sample.hooks) (H0 := Examples.null_customer_platform)
          (Some Sample.created) (Sample.filled Sample.good_token)).1.2 = [].
Proof.
  rewrite (null_customer_is_an_unexpected_error
             (H := Sample.hooks) (H0 := Examples.null_customer_platform));
    try reflexivity; try discriminate.
  - by eexists.
  - simpl. lia.
Defined.

End AddVendorFacts.

(* ===================================================================== *)
(** * Further properties of the code                                     *)
(* ===================================================================== *)

(** ** Zone buttons *)

Module ZoneButtonsFacts.
Import ZoneSelector ZoneButtons.

Lemma filter_other_all (c : string) (l : list string) :
  c ∉ l → filter (λ zone, zone ≠ c) l = l.
Proof.
  induction l as [|x l IH]; intros Hc; [done |].
  rewrite filter_cons_True by (intros ->; apply Hc; left).
  f_equal. apply IH. intros Hin. apply Hc. by right.
Qed.

(** A duplicate-free list of catalog codes as long as the catalog holds
    every catalog code. *)
Lemma full_selection (l : list string) (c : string) :
  NoDup l → (∀ x, x ∈ l → x ∈ catalog) →
  MAX_ZONES ≤ length l → c ∈ catalog → c ∈ l.
Proof.
  intros Hnd Hsub Hlen Hc.
  assert (Hperm : l ≡ₚ catalog).
  { apply submseteq_length_Permutation; [by apply NoDup_submseteq |].
    exact Hlen. }
  by rewrite Hperm.
Qed.

Lemma click_tidy (c : string) (st : SelectorState) :
  c ∈ catalog → tidy st → tidy (handleZoneToggle c st).
Proof.
  intros Hc (Hnd & Hsub & Hwarn).
  split; [by apply ZoneSelectorFacts.handleZoneToggle_NoDup |].
  unfold handleZoneToggle. case_bool_decide as Hin; simpl.
  - split; [| done]. intros x [_ Hx]%list_elem_of_filter. by apply Hsub.
  - case_decide as Hfull; simpl.
    + destruct Hin. by apply full_selection.
    + split; [| done]. intros x [Hx| ->%list_elem_of_singleton]%elem_of_app;
        [by apply Hsub | done].
Qed.

Lemma toggles_tidy (codes : list string) : ∀ st,
  Forall (λ c, c ∈ catalog) codes → tidy st → tidy (toggles codes st).
Proof.
  induction codes as [|c codes IH]; intros st Hall Hst; [done |].
  apply Forall_cons in Hall as [Hc Hall].
  apply IH; [done |]. by apply click_tidy.
Qed.

Lemma tidy_initial : tidy initialSelector.
Proof. split_and!; [constructor | by intros x ?%elem_of_nil | done]. Qed.

(** Whatever sequence of zone buttons is clicked on a fresh page, the
    selection lists catalog codes only, each at most once, holds at
    most 28 of them, and the limit warning is never shown. *)
Theorem buttons_never_reach_the_limit (codes : list string) :
  Forall (λ c, c ∈ catalog) codes →
  NoDup (selectedZones (clicks codes))
  ∧ (∀ x, x ∈ selectedZones (clicks codes) → x ∈ catalog)
  ∧ length (selectedZones (clicks codes)) ≤ MAX_ZONES
  ∧ showMaxWarning (clicks codes) = false.
Proof.
  intros Hall.
  destruct (toggles_tidy codes initialSelector Hall tidy_initial)
    as (Hnd & Hsub & Hwarn).
  split_and!; [done | done | | done].
  rewrite <- ZoneSelectorFacts.catalog_size.
  by apply submseteq_length, NoDup_submseteq.
Qed.

Lemma buttons_never_reach_the_limit_witness :
  showMaxWarning (clicks (catalog ++ ["N1"; "N1"])) = false
  ∧ length (selectedZones (clicks (catalog ++ ["N1"; "N1"]))) ≤ MAX_ZONES.
Proof.
  assert (Hall : Forall (λ c, c ∈ catalog) (catalog ++ ["N1"; "N1"])).
  { apply (bool_decide_unpack _). vm_compute. exact I. }
  destruct (buttons_never_reach_the_limit _ Hall) as (_ & _ & Hlen & Hwarn).
  split; [exact Hwarn | exact Hlen].
Defined.

(** On a page reached by clicking zone buttons, a click on a button
    flips that button and leaves every other button as it was. *)
Theorem click_flips_one_button (codes : list string) (c : string) :
  Forall (λ x, x ∈ catalog) codes →
  c ∈ catalog →
  isSelected (click c (clicks codes)) c = negb (isSelected (clicks codes) c)
  ∧ ∀ z, z ≠ c →
      isSelected (click c (clicks codes)) z = isSelected (clicks codes) z.
Proof.
  intros Hall Hc.
  destruct (toggles_tidy codes initialSelector Hall tidy_initial)
    as (Hnd & Hsub & Hwarn).
  unfold isSelected, click, clicks in *.
  set (st := toggles codes initialSelector) in *.
  destruct (decide (c ∈ selectedZones st)) as [Hin|Hin].
  - assert (Hsel : selectedZones (handleZoneToggle c st)
                   = filter (λ zone, zone ≠ c) (selectedZones st)).
    { unfold handleZoneToggle. by rewrite (bool_decide_eq_true_2 _ Hin). }
    rewrite Hsel. rewrite (bool_decide_eq_true_2 _ Hin). split.
    + apply bool_decide_eq_false. intros [Hne _]%list_elem_of_filter. done.
    + intros z Hz. apply bool_decide_ext. rewrite list_elem_of_filter. tauto.
  - assert (Hlt : ¬ MAX_ZONES ≤ length (selectedZones st)).
    { intros Hfull. apply Hin. by apply full_selection. }
    assert (Hsel : selectedZones (handleZoneToggle c st)
                   = selectedZones st ++ [c]).
    { unfold handleZoneToggle. rewrite (bool_decide_eq_false_2 _ Hin).
      by rewrite (decide_False _ _ Hlt). }
    rewrite Hsel. rewrite (bool_decide_eq_false_2 _ Hin). split.
    + apply bool_decide_eq_true. apply elem_of_app. right. by left.
    + intros z Hz. apply bool_decide_ext. rewrite elem_of_app.
      rewrite list_elem_of_singleton. tauto.
Qed.

Lemma click_flips_one_button_witness :
  isSelected (click "S1" (clicks ["N1"; "S1"])) "S1" = false
  ∧ isSelected (click "S1" (clicks ["N1"; "S1"])) "N1" = true.
Proof.
  assert (Hall : Forall (λ x, x ∈ catalog) ["N1"; "S1"]).
  { apply (bool_decide_unpack _). vm_compute. exact I. }
  assert (Hc : "S1" ∈ catalog).
  { apply (bool_decide_unpack _). vm_compute. exact I. }
  destruct (click_flips_one_button ["N1"; "S1"] "S1" Hall Hc) as [Hflip Hother].
  split; [rewrite Hflip; reflexivity |].
  rewrite (Hother "N1"); [reflexivity | discriminate].
Defined.

(** Toggling the same code twice: an unselected code, added below the
    limit and toggled again, leaves the selection exactly as it was; a
    selected code of a duplicate-free selection comes back at the end
    of the list. *)
Theorem toggle_twice (c : string) (st : SelectorState) :
  length (selectedZones st) ≤ MAX_ZONES →
  NoDup (selectedZones st) →
  (c ∉ selectedZones st → length (selectedZones st) < MAX_ZONES →
     selectedZones (handleZoneToggle c (handleZoneToggle c st))
     = selectedZones st)
  ∧ (c ∈ selectedZones st →
     selectedZones (handleZoneToggle c (handleZoneToggle c st))
     = filter (λ zone, zone ≠ c) (selectedZones st) ++ [c]).
Proof.
  intros Hle Hnd. split.
  - intros Hnin Hlt. unfold handleZoneToggle at 2.
    rewrite bool_decide_eq_false_2 by done.
    rewrite decide_False by lia. unfold handleZoneToggle. simpl.
    rewrite bool_decide_eq_true_2 by (apply elem_of_app; right; by left).
    simpl. rewrite filter_app, filter_other_all by done.
    rewrite filter_cons_False by (by intros Hne). by rewrite app_nil_r.
  - intros Hin. unfold handleZoneToggle at 2.
    rewrite bool_decide_eq_true_2 by done.
    unfold handleZoneToggle. simpl.
    rewrite bool_decide_eq_false_2
      by (intros [Hne _]%list_elem_of_filter; done).
    rewrite decide_False; [done |].
    pose proof (length_filter_lt (λ zone, zone ≠ c) (selectedZones st) c Hin)
      as Hlt.
    unfold MAX_ZONES in *. intros Hge.
    assert (¬ c ≠ c) as Hcc by (intros Hne; done).
    specialize (Hlt Hcc). lia.
Qed.

Lemma toggle_twice_witness :
  selectedZones (handleZoneToggle "E1"
                   (handleZoneToggle "E1" (clicks ["N1"; "S1"])))
  = ["N1"; "S1"]
  ∧ selectedZones (handleZoneToggle "N1"
                     (handleZoneToggle "N1" (clicks ["N1"; "S1"])))
    = ["S1"; "N1"].
Proof.
  assert (Hle : length (selectedZones (clicks ["N1"; "S1"])) ≤ MAX_ZONES).
  { vm_compute. lia. }
  assert (Hnd : NoDup (selectedZones (clicks ["N1"; "S1"]))).
  { apply (bool_decide_unpack _). vm_compute. exact I. }
  destruct (toggle_twice "E1" _ Hle Hnd) as [Hadd _].
  destruct (toggle_twice "N1" _ Hle Hnd) as [_ Hmove].
  split.
  - rewrite Hadd; [reflexivity | | vm_compute; lia].
    apply (bool_decide_unpack _). vm_compute. exact I.
  - rewrite Hmove; [reflexivity |].
    apply (bool_decide_unpack _). vm_compute. exact I.
Defined.

End ZoneButtonsFacts.

(** ** The zone-code pattern and the validation middleware *)

Module ValidationFacts.
Import ZoneSelector ZoneCode ZoneConfig.

(** The pattern accepts exactly 36 codes: the 28 of the catalog and the
    eight that pair E, W, NE or C with the digits 5 and 6. *)
Theorem validZonePattern_accepts_exactly :
  (∀ code, validZonePattern_test code = true ↔ code ∈ accepted)
  ∧ length accepted = 36
  ∧ (∀ c, c ∈ catalog → c ∈ accepted)
  ∧ filter (λ c, c ∉ catalog) accepted
    = ["E5"; "E6"; "W5"; "W6"; "NE5"; "NE6"; "C5"; "C6"].
Proof.
  split_and!.
  - apply ZoneCodeFacts.validZonePattern_test_accepted.
  - reflexivity.
  - apply Forall_forall. apply (bool_decide_unpack _). vm_compute. exact I.
  - vm_compute. reflexivity.
Qed.

Lemma checkZoneCodes_first (pre post : list Zone) (z : Zone) :
  Forall (λ z, validZonePattern_test (zoneCode z) = true) pre →
  validZonePattern_test (zoneCode z) = false →
  checkZoneCodes (pre ++ z :: post)
  = Some (Reject 400 ("Invalid zone code: " +:+ zoneCode z)).
Proof.
  intros Hpre Hz. induction Hpre as [|x pre Hx Hpre IH]; simpl.
  - by rewrite Hz.
  - by rewrite Hx.
Qed.

(** When the customer and the name are fine and there are between 1
    and 28 zones, the first zone whose code does not match the pattern
    is the one the answer names, with status 400, whatever the price
    matrix holds. *)
Theorem first_invalid_zone_code_is_reported req pre z post :
  customerID (body req) = user_customer_id req →
  badConfigName (configName (body req)) = false →
  zones (body req) = Some (pre ++ z :: post) →
  length (pre ++ z :: post) ≤ 28 →
  Forall (λ z, validZonePattern_test (zoneCode z) = true) pre →
  validZonePattern_test (zoneCode z) = false →
  validateZoneConfig req
  = Reject 400 ("Invalid zone code: " +:+ zoneCode z).
Proof.
  intros Hid Hname Hzs Hlen Hpre Hz. unfold validateZoneConfig.
  rewrite bool_decide_eq_true_2 by done. simpl. rewrite Hname, Hzs.
  replace (length (pre ++ z :: post) =? 0) with false.
  2:{ symmetry. apply Nat.eqb_neq. rewrite length_app. simpl. lia. }
  replace (28 <? length (pre ++ z :: post)) with false
    by (symmetry; apply Nat.ltb_ge; lia).
  simpl. by rewrite checkZoneCodes_first.
Qed.

Lemma first_invalid_zone_code_is_reported_witness :
  validateZoneConfig
    (mkRequest (mkBody "u1" (Some "Routes")
                  (Some [mkZone "N1" "North 1" "North";
                         mkZone "N7" "North 7" "North";
                         mkZone "X1" "Nowhere" "North"])
                  None) "u1")
  = Reject 400 "Invalid zone code: N7".
Proof.
  apply (first_invalid_zone_code_is_reported _
           [mkZone "N1" "North 1" "North"] (mkZone "N7" "North 7" "North")
           [mkZone "X1" "Nowhere" "North"]);
    try reflexivity; [simpl; lia | by repeat constructor].
Defined.




(** The length of a name counts its characters, not its bytes: a name
    of 51 letters [é], 102 bytes, is accepted, and one of 101 is not. *)
Lemma accented_name_length :
  badConfigName (Some "ééééééééééééééééééééééééééééééééééééééééééééééééééé") = false
  ∧ badConfigName (Some "ééééééééééééééééééééééééééééééééééééééééééééééééééééééééééééééééééééééééééééééééééééééééééééééééééééé") = true.
Proof. split; reflexivity. Qed.

End ValidationFacts.

(** ** Charge cards and charge fields *)

Module ChargeCardFacts.
Import ChargeField ChargeCard.

(** A card never shows the fixed-rate input and the percentage
    dropdown together. The COD and To-Pay cards always show the
    fixed-rate input; any other card whose data is neither
    INR and FIXED nor PERCENT and VARIABLE shows neither. *)
Theorem card_inputs_are_exclusive (cardName : CardName)
        (data : ChargeCardData) :
  showFixed cardName data && showVariable cardName data = false
  ∧ (supportsVariablePercent cardName = false →
     showFixed cardName data = true ∧ showVariable cardName data = false)
  ∧ (supportsVariablePercent cardName = true →
     isFixedRupee data = false → isVariablePercent data = false →
     showFixed cardName data = false ∧ showVariable cardName data = false).
Proof.
  unfold showFixed, showVariable. split_and!.
  - destruct (supportsVariablePercent cardName); [| by rewrite andb_false_r].
    rewrite andb_true_r. unfold isFixedRupee, isVariablePercent.
    destruct (decide (currency data = "INR")) as [Hinr|Hinr].
    + rewrite (bool_decide_eq_false_2 (currency data = "PERCENT"))
        by (rewrite Hinr; discriminate).
      by rewrite andb_false_r.
    + by rewrite (bool_decide_eq_false_2 _ Hinr).
  - intros ->. by rewrite andb_false_r.
  - intros -> -> ->. done.
Qed.

(** On a card that has the pills, "Fixed" brings up the fixed-rate
    input alone and "Variable" the percentage dropdown alone, from any
    state of the card, and neither touches the other fields. *)
Theorem pills_select_one_input (cardName : CardName)
        (data : ChargeCardData) :
  supportsVariablePercent cardName = true →
  (showFixed cardName (store_all clickFixed data) = true
   ∧ showVariable cardName (store_all clickFixed data) = false)
  ∧ (showVariable cardName (store_all clickVariable data) = true
     ∧ showFixed cardName (store_all clickVariable data) = false)
  ∧ ∀ pill, pill = clickFixed ∨ pill = clickVariable →
      unit (store_all pill data) = unit data
      ∧ fixedAmount (store_all pill data) = fixedAmount data
      ∧ variableRange (store_all pill data) = variableRange data
      ∧ weightThreshold (store_all pill data) = weightThreshold data.
Proof.
  intros Hsup. unfold showFixed, showVariable. rewrite Hsup.
  split_and!; try reflexivity.
  intros pill [-> | ->]; by split_and!.
Qed.

Lemma pills_select_one_input_witness :
  showFixed rovCharges
    (store_all clickFixed
       (mkCard "PERCENT" "VARIABLE" "kg" (Finite 0) "0.1-0.5" (Finite 0)))
  = true.
Proof.
  apply (pills_select_one_input rovCharges
           (mkCard "PERCENT" "VARIABLE" "kg" (Finite 0) "0.1-0.5" (Finite 0))).
  reflexivity.
Defined.

Section Typing.
Variable parseFloat : string → number.

Lemma handleChange_keeps_number (val : string) (value : number) :
  isNaN value = false →
  isNaN (SimpleChargeField_handleChange parseFloat keep val value) = false.
Proof.
  intros Hv. unfold SimpleChargeField_handleChange, keep.
  case_bool_decide; [done |].
  destruct (isNaN (parseFloat val)) eqn:Hp; simpl; done.
Qed.

(** Whatever is typed into a basic charge field, in any order, a
    stored charge that was a number stays one: [NaN] is never stored.
    The amount and weight inputs of a charge card have no such guard:
    a text that does not parse is handed to the store as [NaN]. *)
Theorem basic_fields_never_store_NaN :
  (∀ vals value, isNaN value = false → isNaN (typed parseFloat vals value) = false)
  ∧ (∀ val data, val ≠ "" → isNaN (parseFloat val) = true →
       isNaN (fixedAmount (store_all (fixedAmount_onChange parseFloat val) data))
       = true
       ∧ isNaN (weightThreshold
                  (store_all (weightThreshold_onChange parseFloat val) data))
         = true).
Proof.
  split.
  - intros vals. unfold typed.
    induction vals as [|val vals IH]; intros value Hv; [done |].
    simpl. apply IH. by apply handleChange_keeps_number.
  - intros val data Hne Hnan.
    unfold fixedAmount_onChange, weightThreshold_onChange. simpl.
    by rewrite bool_decide_eq_false_2 by done.
Qed.
End Typing.

Lemma basic_fields_never_store_NaN_witness :
  isNaN (typed parseFloat_sample ["abc"; "12.5"; "-"; ""; "x"] (Finite 7))
  = false
  ∧ isNaN (fixedAmount
             (store_all (fixedAmount_onChange parseFloat_sample "abc")
                (mkCard "INR" "FIXED" "kg" (Finite 7) "" (Finite 0))))
    = true.
Proof.
  split.
  - apply (basic_fields_never_store_NaN parseFloat_sample). reflexivity.
  - apply (basic_fields_never_store_NaN parseFloat_sample);
      [discriminate | reflexivity].
Defined.

End ChargeCardFacts.

(** ** Reading the token *)

Module TokenMoreFacts.
Import Token TokenPanel.






Section DecodeMore.
Variable atob : string → option string.
Variable JSON_parse : string → option Json.


Lemma or_else_chain (cs : list (option Json)) :
  foldr or_else (Some (JString "")) cs = Some (first_truthy cs).
Proof.
  unfold first_truthy. induction cs as [|c cs IH]; [done |]. simpl.
  unfold or_else at 1. destruct (truthy c) eqn:Hc.
  - rewrite filter_cons_True by done. destruct c; [done | discriminate].
  - rewrite filter_cons_False by congruence. exact IH.
Qed.

Lemma first_truthy_value (cs : list (option Json)) :
  truthy (Some (first_truthy cs)) = true ∨ first_truthy cs = JString "".
Proof.
  unfold first_truthy.
  destruct (filter _ cs) as [|[v|] l] eqn:Hf; [by right | | by right].
  left. assert (Hin : Some v ∈ filter (λ v, truthy v = true) cs)
    by (rewrite Hf; left).
  by apply list_elem_of_filter in Hin as [? _].
Qed.

(** [getCustomerIDFromToken] throws exactly when the token has two
    segments and the payload's [customer] is [null]; otherwise it
    returns the first truthy value among the six places it looks at,
    in their order, and the empty string when there is none or the
    token has fewer than two segments. What it returns is therefore
    truthy or the empty string. *)
Theorem identifier_is_first_truthy (st : Storage) :
  let token := getAuthToken st in
  let payload := payloadOf atob JSON_parse token in
  let decoded := token ≠ "" ∧ 2 ≤ length (split_dot token) in
  (getCustomerIDFromToken atob JSON_parse st = None
   ↔ decoded ∧ prop payload "customer" = Some JNull)
  ∧ (decoded → prop payload "customer" ≠ Some JNull →
     getCustomerIDFromToken atob JSON_parse st
     = Some (first_truthy (claims payload)))
  ∧ (¬ decoded →
     getCustomerIDFromToken atob JSON_parse st = Some (JString ""))
  ∧ (∀ v, getCustomerIDFromToken atob JSON_parse st = Some v →
          truthy (Some v) = true ∨ v = JString "").
Proof.
  intros token payload decoded.
  assert (Hchain : ∀ id, id = first_truthy (claims payload) →
            or_else (Some id) (Some (JString "")) = Some id).
  { intros id ->. unfold or_else.
    destruct (first_truthy_value (claims payload)) as [-> | ->]; done. }
  assert (Hbody : getCustomerIDFromToken atob JSON_parse st
                  = if bool_decide (token = "")
                       || (length (split_dot token) <? 2)
                    then Some (JString "")
                    else match prop payload "customer" with
                         | Some JNull => None
                         | _ => Some (first_truthy (claims payload))
                         end).
  { unfold getCustomerIDFromToken. fold token. fold payload.
    destruct (_ || _); [done |].
    pose proof (or_else_chain (claims payload)) as Hc.
    unfold claims in Hc at 1. simpl in Hc. rewrite Hc.
    rewrite (Hchain _ eq_refl). done. }
  assert (Hdec : bool_decide (token = "") || (length (split_dot token) <? 2)
                 = false ↔ decoded).
  { unfold decoded. rewrite orb_false_iff, bool_decide_eq_false, Nat.ltb_ge.
    done. }
  rewrite Hbody. clear Hbody Hchain.
  destruct (_ || _) eqn:Hguard.
  - assert (Hnd : ¬ decoded) by (intros Hd; by apply Hdec in Hd).
    split_and!; try done.
    + split; [done | by intros [? _]].
    + intros v [= <-]. by right.
  - assert (Hd : decoded) by (by apply Hdec).
    split_and!.
    + destruct (prop payload "customer") as [[]|]; split; try done;
        by intros [_ ?].
    + intros _ Hnull. destruct (prop payload "customer") as [[]|]; done.
    + done.
    + intros v. destruct (prop payload "customer") as [[]|]; try done;
        intros [= <-]; apply first_truthy_value.
Qed.

Lemma str_or_empty (a b : option string) :
  default "" (str_or a b) = "" ↔ empty_store a ∧ default "" b = "".
Proof.
  unfold str_or, empty_store. destruct a as [s|]; simpl.
  - case_bool_decide as Hs; [subst; tauto |]. simpl. tauto.
  - tauto.
Qed.

(** "Show Token" always opens the panel with the stored token. It
    shows the error toast exactly when neither the cookie nor the two
    local-storage keys hold a non-empty token, and then the submit
    handler finds no identifier. For a token of two segments the
    payload it shows is the one the identifier is read from, except
    that a payload that is missing or falsy is read as the empty
    object. *)
Theorem token_panel_shows_what_is_read (st : Storage) :
  let panel := (handleShowToken atob JSON_parse st).1 in
  let toasts := (handleShowToken atob JSON_parse st).2 in
  tokenPanelOpen panel = true
  ∧ tokenValue panel = getAuthToken st
  ∧ (toasts ≠ []
     ↔ empty_store (cookie_authToken st) ∧ empty_store (local_authToken st)
       ∧ empty_store (local_token st))
  ∧ (toasts ≠ [] →
     tokenPayload panel = None
     ∧ getCustomerIDFromToken atob JSON_parse st = Some (JString ""))
  ∧ (2 ≤ length (split_dot (getAuthToken st)) →
     payloadOf atob JSON_parse (getAuthToken st)
     = or_else (tokenPayload panel) (Some (JObject [])))
  ∧ (length (split_dot (getAuthToken st)) < 2 → tokenPayload panel = None).
Proof.
  cbv zeta. unfold handleShowToken.
  assert (Hempty : getAuthToken st = ""
                   ↔ empty_store (cookie_authToken st)
                     ∧ empty_store (local_authToken st)
                     ∧ empty_store (local_token st)).
  { unfold getAuthToken. rewrite !str_or_empty. simpl. unfold empty_store.
    tauto. }
  case_bool_decide as Htok;
    cbn [fst snd tokenPanelOpen tokenValue tokenPayload].
  - rewrite Htok. split_and!; try done.
    + split; [intros _; by apply Hempty | done].
    + intros _. split; [done |].
      by apply TokenFacts.getCustomerIDFromToken_absent.
    + simpl. lia.
  - split_and!; try done.
    + split; [done |]. intros Hall. by apply Hempty in Hall.
    + intros Hlen. apply Nat.leb_le in Hlen. by rewrite Hlen.
    + intros Hlen. apply Nat.leb_gt in Hlen. by rewrite Hlen.
Qed.

End DecodeMore.

(** The sample token: the identifier under [customer._id] is found. *)
Lemma identifier_is_first_truthy_witness :
  getCustomerIDFromToken (@AddVendor.atob Sample.platform)
    (@AddVendor.JSON_parse Sample.platform)
    (Sample.storage_with Sample.good_token)
  = Some (JString "507f1f77bcf86cd799439011").
Proof.
  destruct (identifier_is_first_truthy (@AddVendor.atob Sample.platform)
              (@AddVendor.JSON_parse Sample.platform)
              (Sample.storage_with Sample.good_token))
    as (_ & Hfirst & _).
  rewrite Hfirst; [reflexivity | | discriminate].
  split; [discriminate | simpl; lia].
Defined.

End TokenMoreFacts.

(** ** The zone configuration controller *)

Module ControllerFacts.
Import ZoneConfig Controller.

(** [getOne], [update] and [delete] on a configuration of another
    customer answer 403 and on a missing one 404, in both cases after
    the read alone. Data is only ever returned with status 200 to the
    customer the stored configuration belongs to, and a write is only
    ever issued for that customer: [getOne] writes nothing, [update]
    saves under the [_id] of the body when it gives one and under the
    stored one otherwise, [delete] saves under the stored [_id] or
    deletes the identifier asked for. *)
Theorem foreign_configuration_is_untouched (h : Handler) (user id : string)
        (now : nat) (found : FindResult) (written : WriteResult) :
  let ops := (handle h user id now found written).1 in
  let answer := (handle h user id now found written).2 in
  (∀ config, found = Found config → cfg_customerID config ≠ user →
     ops = [FindById id] ∧ status answer = 403
     ∧ success answer = false ∧ data answer = None)
  ∧ (found = NotFound →
     ops = [FindById id] ∧ status answer = 404 ∧ data answer = None)
  ∧ (data answer ≠ None →
     ∃ config, found = Found config ∧ cfg_customerID config = user
               ∧ status answer = 200 ∧ success answer = true)
  ∧ (∀ op, op ∈ writes ops →
     ∃ config, found = Found config ∧ cfg_customerID config = user
       ∧ match h with
         | GetOne => False
         | Update b =>
             ∃ c, op = Save c ∧ _id c = default (_id config) (p_id b)
         | Delete hard =>
             if bool_decide (hard = Some "true")
             then op = FindByIdAndDelete id
             else ∃ c, op = Save c ∧ _id c = _id config
         end).
Proof.
  cbv zeta. split_and!.
  - intros config -> Hne.
    destruct h; simpl; rewrite bool_decide_eq_false_2 by done; done.
  - intros ->. destruct h; done.
  - destruct found as [config| |e]; try (destruct h; simpl; done).
    destruct (decide (cfg_customerID config = user)) as [Hown|Hne].
    + intros Hdata. exists config. split; [done |]. split; [done |].
      revert Hdata. destruct h; simpl;
        rewrite (bool_decide_eq_true_2 _ Hown); simpl; try done.
      * destruct written; done.
      * case_bool_decide; destruct written; done.
    + destruct h; simpl; rewrite (bool_decide_eq_false_2 _ Hne); done.
  - intros op. destruct found as [config| |e];
      try (destruct h; simpl; by intros ?%elem_of_nil).
    destruct (decide (cfg_customerID config = user)) as [Hown|Hne].
    + intros Hop. exists config. split; [done |]. split; [done |].
      revert Hop. destruct h as [|b|hard]; simpl;
        rewrite (bool_decide_eq_true_2 _ Hown); simpl.
      * by intros ?%elem_of_nil.
      * destruct written; simpl; intros ->%list_elem_of_singleton; eauto.
      * case_bool_decide; destruct written; simpl;
          intros ->%list_elem_of_singleton; eauto.
    + destruct h; simpl; rewrite (bool_decide_eq_false_2 _ Hne); simpl;
        by intros ?%elem_of_nil.
Qed.

Lemma foreign_configuration_is_untouched_witness :
  (handle (Delete (Some "true")) "u2" "65a1" 200
          (Found Examples.stored) Written).1 = [FindById "65a1"]
  ∧ status (handle (Update Examples.hand_over) "u2" "65a1" 200
                   (Found Examples.stored) Written).2 = 403.
Proof.
  split.
  - destruct (foreign_configuration_is_untouched (Delete (Some "true")) "u2"
                "65a1" 200 (Found Examples.stored) Written) as [Hforeign _].
    apply (Hforeign Examples.stored); [reflexivity | discriminate].
  - destruct (foreign_configuration_is_untouched (Update Examples.hand_over)
                "u2" "65a1" 200 (Found Examples.stored) Written)
      as [Hforeign _].
    apply (Hforeign Examples.stored); [reflexivity | discriminate].
Defined.

(** For its owner, [delete] removes the configuration for good only
    when the query says [hard=true], letter for letter; with any other
    value, or none, it saves it again with the status "archived" and
    the time of the call, every other field as it was, the version
    included. It reports success exactly when the write went through. *)
Theorem delete_archives_unless_hard (user id : string)
        (hard : option string) (now : nat) (config : Config)
        (written : WriteResult) :
  cfg_customerID config = user →
  let ops := (delete user id hard now (Found config) written).1 in
  let answer := (delete user id hard now (Found config) written).2 in
  (hard = Some "true" → ops = [FindById id; FindByIdAndDelete id])
  ∧ (hard ≠ Some "true" →
     ops = [FindById id;
            Save (mkConfig (_id config) (cfg_customerID config)
                    (cfg_configName config) (cfg_description config)
                    (cfg_zones config) (cfg_priceMatrix config) "archived"
                    (cfg_version config) (cfg_createdAt config) now)]
     ∧ (written = Written →
        data answer = Some (Archived (_id config) "archived" now)))
  ∧ (success answer = true ↔ written = Written)
  ∧ (written ≠ Written → status answer = 500).
Proof.
  intros Hown. cbv zeta. unfold delete.
  rewrite (bool_decide_eq_true_2 _ Hown). simpl. split_and!.
  - intros ->. rewrite bool_decide_eq_true_2 by done. by destruct written.
  - intros Hsoft. rewrite (bool_decide_eq_false_2 _ Hsoft).
    destruct written; split; done.
  - case_bool_decide; destruct written; split; done.
  - case_bool_decide; destruct written; done.
Qed.

Lemma delete_archives_unless_hard_witness :
  (delete "u1" "65a1" (Some "TRUE") 200 (Found Examples.stored) Written).1
  = [FindById "65a1";
     Save (mkConfig "65a1" "u1" "North-South Express Routes" ""
             Sample.two_zones Sample.one_unset "archived" 1 100 200)].
Proof.
  destruct (delete_archives_unless_hard "u1" "65a1" (Some "TRUE") 200
              Examples.stored Written eq_refl) as (_ & Hsoft & _).
  apply Hsoft. discriminate.
Defined.


(** At [2^53] adding one changes nothing, and from [2^53 + 2] it
    gives [2^53 + 4]. *)
Lemma increment_beyond_safe :
  increment (2 ^ 53) = (2 ^ 53)%Z
  ∧ increment (2 ^ 53 + 2) = (2 ^ 53 + 4)%Z.
Proof. split; reflexivity. Qed.



End ControllerFacts.

(** ** Creating a configuration *)

Module CreateFacts.
Import Controller CreateController.



End CreateFacts.
